(** * lmstudio-mcp: the tool handlers and the request forwarder of [index.ts]

    A shallow embedding of the MCP bridge of [src/index.ts], in the revision
    that reads [--base-url]: the forwarder [makeRequest] and the four
    registered tool handlers ([echo], [lmstudio_list_models],
    [lmstudio_get_current_model], [lmstudio_chat_completion]).

    Conventions of the embedding.
    - A JavaScript string is a [string] holding its UTF-8 bytes.
    - A value produced by [response.json()] is a [JSValue]; [undefined], which
      JSON cannot produce but property reads can, is [None] in an
      [option JSValue].
    - JSON numbers are IEEE doubles.  The development is parametric in their
      representation ([JsNumber]): the handlers only ever test a number for
      being zero, print it, or serialise it.
    - [await] is sequencing in the monad [M], which threads the process
      state ([World]: [process.argv], the network, and the log of outbound
      calls) and carries thrown values ([Thrown]).  The state survives a
      throw, as the outbound call of a failed request has still happened. *)

From Stdlib Require Import String Ascii List Arith ZArith Bool Lia DecimalString.
#[local] Set Warnings "-register-all".
Import ListNotations.
Local Open Scope list_scope.
Local Open Scope string_scope.

(** ** Strings *)

(** The line feed of the template literals' [\n]. *)
Definition LF : string := String "010"%char "".

(** [`${n}`] for a non-negative integer [n] (array lengths, indices, HTTP
    status codes). *)
Definition decimal (n : nat) : string := NilEmpty.string_of_uint (Nat.to_uint n).

(** [Array.prototype.join] on strings. *)
Definition join (sep : string) (parts : list string) : string :=
  String.concat sep parts.

(** [hay] has [needle] as a contiguous substring. *)
Definition contains (needle hay : string) : Prop :=
  exists pre post, hay = pre ++ needle ++ post.

(** [s] starts with [p]. *)
Definition begins_with (p s : string) : Prop :=
  exists rest, s = p ++ rest.

(** ** Thrown values and outcomes *)

(** What a [catch] clause of the source can observe of the value it caught:
    whether it is an [Error] instance, then its [message]; otherwise its
    [String(error)] rendering. *)
Inductive Thrown : Type :=
| ErrorInstance (message : string)
| NonError (rendering : string).

(** [new Error(message)]. *)
Definition new_Error (message : string) : Thrown := ErrorInstance message.

(** [error instanceof Error ? error.message : String(error)]. *)
Definition describe (error : Thrown) : string :=
  match error with
  | ErrorInstance message => message
  | NonError rendering => rendering
  end.

(** An evaluation either returns a value or throws. *)
Inductive Outcome (A : Type) : Type :=
| Returned (a : A)
| Threw (error : Thrown).
Arguments Returned {A} a.
Arguments Threw {A} error.

Definition obind {A B} (o : Outcome A) (k : A -> Outcome B) : Outcome B :=
  match o with
  | Returned a => k a
  | Threw e => Threw e
  end.

(** ** Tool results and chat messages *)

(** A content block of a tool result: [{ type: "text", text }]. *)
Record ContentBlock : Type := { type : string; text : string }.

(** What a handler returns: [{ content: [...] }]. *)
Record ToolResult : Type := { content : list ContentBlock }.

(** [{ content: [{ type: "text", text: t }] }], the shape of every result
    in the source. *)
Definition text_result (t : string) : ToolResult :=
  {| content := [ {| type := "text"; text := t |} ] |}.

(** [role: "system" | "user" | "assistant"]. *)
Inductive Role : Type := system | user | assistant.

Definition role_name (r : Role) : string :=
  match r with
  | system => "system"
  | user => "user"
  | assistant => "assistant"
  end.

(** [interface ChatMessage], in a name space of its own: its [content] is
    not the [content] of a tool result. *)
Module ChatMessage.
Record t : Type := { role : Role; content : string }.
End ChatMessage.

(** [interface RequestOptions]; [None] is an absent property. *)
Record RequestOptions : Type := {
  method : option string;
  headers : option (list (string * string));
  body : option string
}.

(** [options = {}], the default of [makeRequest]. *)
Definition no_options : RequestOptions :=
  {| method := None; headers := None; body := None |}.

(** The second argument of [fetch]. *)
Record RequestInit : Type := {
  init_method : option string;
  init_headers : list (string * string);
  init_body : option string
}.

(** One outbound HTTP call: the arguments [fetch] was given. *)
Record Request : Type := { url : string; init : RequestInit }.

(** [arr.findIndex(p)]; [None] is the [-1] of "not found". *)
Fixpoint findIndex {A : Type} (p : A -> bool) (l : list A) : option nat :=
  match l with
  | [] => None
  | x :: rest => if p x then Some 0 else option_map S (findIndex p rest)
  end.

(** [a || b] on a possibly-null string: the empty string is falsy. *)
Definition string_or (a : option string) (b : string) : string :=
  match a with
  | Some s => if s =? "" then b else s
  | None => b
  end.

(** [{ ...a, ...b }] on header maps: the entries of [b] override. *)
Definition spread (a b : list (string * string)) : list (string * string) :=
  filter (fun kv => negb (existsb (fun kv' => fst kv' =? fst kv) b)) a ++ b.

(** ** JSON numbers *)

(** The three observations the bridge makes of a number: [n === 0] (which is
    also its falsiness, JSON having no NaN), [String(n)], and whether it is
    finite ([JSON.parse] reads [1e999] as [Infinity], which
    [JSON.stringify] writes as [null]). *)
Record JsNumber : Type := {
  number : Type;
  number_is_zero : number -> bool;
  number_is_finite : number -> bool;
  number_to_string : number -> string
}.

(** Integer-valued numbers (token counts, timestamps), for running the
    handlers on concrete responses. *)
Definition IntegerNumber : JsNumber :=
  {| number := Z;
     number_is_zero := fun z => Z.eqb z 0;
     number_is_finite := fun _ => true;
     number_to_string := fun z => NilEmpty.string_of_int (Z.to_int z) |}.

Section Bridge.

Variable Num : JsNumber.

(** ** JSON values *)

(** The result of [JSON.parse].  An object lists its own properties in
    enumeration order. *)
Inductive JSValue : Type :=
| JNull
| JBool (b : bool)
| JNum (n : number Num)
| JStr (s : string)
| JArr (items : list JSValue)
| JObj (props : list (string * JSValue)).

(** Own-property lookup. *)
Fixpoint lookup (key : string) (props : list (string * JSValue)) : option JSValue :=
  match props with
  | [] => None
  | (k, v) :: rest => if k =? key then Some v else lookup key rest
  end.

(** ToBoolean. *)
Definition truthy (v : JSValue) : bool :=
  match v with
  | JNull => false
  | JBool b => b
  | JNum n => negb (number_is_zero Num n)
  | JStr s => negb (s =? "")
  | JArr _ | JObj _ => true
  end.

(** [a || b] where [a] may be [undefined]. *)
Definition js_or (a : option JSValue) (b : JSValue) : JSValue :=
  match a with
  | Some v => if truthy v then v else b
  | None => b
  end.

Definition TypeError (message : string) : Thrown := ErrorInstance message.

(** [v.key] for the property names the handlers read ([data], [model],
    [choices], [usage], [message], [content], [id], [name]); none of them is
    defined on a built-in prototype, so only an object can have one.
    Reading a property of [null] throws (V8's wording). *)
Definition get_prop (v : JSValue) (key : string) : Outcome (option JSValue) :=
  match v with
  | JNull => Threw (TypeError ("Cannot read properties of null (reading '" ++ key ++ "')"))
  | JObj props => Returned (lookup key props)
  | _ => Returned None
  end.

(** [v?.key]: [undefined] when [v] is [undefined] or [null]. *)
Definition opt_prop (v : option JSValue) (key : string) : option JSValue :=
  match v with
  | Some (JObj props) => lookup key props
  | _ => None
  end.

(** [v?.[0]].  On a string it is the first character, of which the handlers
    only ever read a property; the first byte stands for it. *)
Definition opt_first (v : option JSValue) : option JSValue :=
  match v with
  | Some (JArr items) => hd_error items
  | Some (JObj props) => lookup "0" props
  | Some (JStr s) => if s =? "" then None else Some (JStr (substring 0 1 s))
  | _ => None
  end.

(** ToString, as a template literal applies it.  An object without an own
    [toString] prints through [Object.prototype.toString]; with one (never
    callable in parsed JSON) the conversion throws.  An array prints through
    [join(",")], where [null] elements print as empty. *)
Fixpoint ToString (v : JSValue) : Outcome string :=
  match v with
  | JNull => Returned "null"
  | JBool true => Returned "true"
  | JBool false => Returned "false"
  | JNum n => Returned (number_to_string Num n)
  | JStr s => Returned s
  | JArr items =>
      (fix elements (l : list JSValue) : Outcome string :=
         match l with
         | [] => Returned ""
         | x :: rest =>
             obind (match x with JNull => Returned "" | _ => ToString x end) (fun s =>
             match rest with
             | [] => Returned s
             | _ => obind (elements rest) (fun r => Returned (s ++ "," ++ r))
             end)
         end) items
  | JObj props =>
      match lookup "toString" props with
      | Some _ => Threw (TypeError "Cannot convert object to primitive value")
      | None => Returned "[object Object]"
      end
  end.

(** ** JSON.stringify *)

Definition hex_digit (n : nat) : string :=
  substring n 1 "0123456789abcdef".

(** QuoteJSONString, one byte at a time: bytes of a multi-byte UTF-8
    sequence pass through unchanged. *)
Definition quote_char (c : ascii) : string :=
  let n := nat_of_ascii c in
  if Nat.eqb n 8 then "\b"
  else if Nat.eqb n 9 then "\t"
  else if Nat.eqb n 10 then "\n"
  else if Nat.eqb n 12 then "\f"
  else if Nat.eqb n 13 then "\r"
  else if Nat.eqb n 34 then String "\" (String c "")
  else if Nat.eqb n 92 then "\\"
  else if Nat.ltb n 32 then "\u00" ++ hex_digit (n / 16) ++ hex_digit (n mod 16)
  else String c "".

Fixpoint quote_chars (s : string) : string :=
  match s with
  | "" => ""
  | String c rest => quote_char c ++ quote_chars rest
  end.

Definition DQUOTE : string := String "034"%char "".

Definition QuoteJSONString (s : string) : string :=
  DQUOTE ++ quote_chars s ++ DQUOTE.

(** SerializeJSONProperty with the gap [gap] at the current indentation
    [indent]. *)
Fixpoint SerializeJSON (gap indent : string) (v : JSValue) : string :=
  let stepback := indent in
  let indent := indent ++ gap in
  let wrap (open close : string) (partial : list string) : string :=
    match partial with
    | [] => open ++ close
    | _ =>
        if gap =? "" then open ++ join "," partial ++ close
        else open ++ LF ++ indent ++ join ("," ++ LF ++ indent) partial
                  ++ LF ++ stepback ++ close
    end in
  match v with
  | JNull => "null"
  | JBool true => "true"
  | JBool false => "false"
  | JNum n => if number_is_finite Num n then number_to_string Num n else "null"
  | JStr s => QuoteJSONString s
  | JArr items => wrap "[" "]" (map (SerializeJSON gap indent) items)
  | JObj props =>
      wrap "{" "}"
        (map (fun kv => QuoteJSONString (fst kv) ++ ":"
                          ++ (if gap =? "" then "" else " ")
                          ++ SerializeJSON gap indent (snd kv)) props)
  end.

(** [JSON.stringify(v)]. *)
Definition JSON_stringify (v : JSValue) : string := SerializeJSON "" "" v.

(** [JSON.stringify(v, null, 2)]. *)
Definition JSON_stringify_2 (v : JSValue) : string := SerializeJSON "  " "" v.

(** ** The process state and the monad of handlers *)

(** node-fetch's [Response], as far as [makeRequest] reads it: the status
    line and the outcome of [response.json()]. *)
Record Response : Type := {
  status : nat;
  statusText : string;
  json : Outcome JSValue
}.

(** node-fetch's getter [Response.ok]: the status is in the range 200-299. *)
Definition ok (response : Response) : bool :=
  (200 <=? status response)%nat && (status response <? 300)%nat.

(** The state a handler runs in: [process.argv], the network (what [fetch]
    settles to for a given call), and the outbound calls made so far, oldest
    first. *)
Record World : Type := {
  argv : list string;
  network : Request -> Outcome Response;
  outbound : list Request
}.

(** A computation that may read the arguments, call out, and throw. *)
Definition M (A : Type) : Type := World -> Outcome A * World.

Definition ret {A : Type} (a : A) : M A := fun w => (Returned a, w).

Definition throw {A : Type} (error : Thrown) : M A := fun w => (Threw error, w).

Definition bind {A B : Type} (m : M A) (k : A -> M B) : M B :=
  fun w =>
    match m w with
    | (Returned a, w') => k a w'
    | (Threw error, w') => (Threw error, w')
    end.

(** [try { body } catch (error) { handler }], also [promise.catch(handler)]. *)
Definition try_catch {A : Type} (body : M A) (handler : Thrown -> M A) : M A :=
  fun w =>
    match body w with
    | (Returned a, w') => (Returned a, w')
    | (Threw error, w') => handler error w'
    end.

(** A pure evaluation inside a handler. *)
Definition lift {A : Type} (o : Outcome A) : M A := fun w => (o, w).

Notation "x <- m ;; k" := (bind m (fun x => k))
  (at level 61, m at next level, right associativity).

(** [process.argv.slice(2)]. *)
Definition process_argv_slice_2 : M (list string) :=
  fun w => (Returned (skipn 2 (argv w)), w).

(** [fetch(url, init)]: the call is logged, then settles as the network
    decides. *)
Definition fetch (u : string) (i : RequestInit) : M Response :=
  fun w =>
    let request := {| url := u; init := i |} in
    (network w request,
     {| argv := argv w; network := network w;
        outbound := (outbound w ++ [request])%list |}).

(** [response.json()]. *)
Definition response_json (response : Response) : M JSValue :=
  lift (json response).

(** ** The forwarder *)

Definition LM_STUDIO_BASE_URL : string := "http://localhost:1234".
Definition V1 : string := "/v1".

(** The [baseUrlFromArgs] of [makeRequest]: the argument after the first
    [--base-url], when there is one. *)
Definition baseUrlFromArgs (args : list string) : option string :=
  let baseUrlIndex := findIndex (fun arg => arg =? "--base-url") args in
  match baseUrlIndex with
  | Some index =>
      if (index + 1 <? length args)%nat then nth_error args (index + 1) else None
  | None => None
  end.

(** The URL [makeRequest] hands to [fetch]. *)
Definition request_url (args : list string) (endpoint : string) : string :=
  string_or (baseUrlFromArgs args) LM_STUDIO_BASE_URL ++ V1 ++ endpoint.

(** [{ headers: { 'Content-Type': 'application/json', ...options.headers },
      ...options }]: an [options.headers], when present, replaces the merged
    headers again. *)
Definition request_init (options : RequestOptions) : RequestInit :=
  let merged :=
    spread [("Content-Type", "application/json")]
           (match headers options with Some h => h | None => [] end) in
  {| init_method := method options;
     init_headers := match headers options with Some h => h | None => merged end;
     init_body := body options |}.

Definition makeRequest (endpoint : string) (options : RequestOptions) : M JSValue :=
  args <- process_argv_slice_2 ;;
  response <-
    try_catch (fetch (request_url args endpoint) (request_init options))
      (fun error =>
         throw (new_Error ("LM Studio API request failed: " ++ describe error))) ;;
  if negb (ok response) then
    throw (new_Error ("LM Studio API request failed: HTTP "
                        ++ decimal (status response) ++ ": " ++ statusText response))
  else
    try_catch (response_json response)
      (fun error =>
         throw (new_Error ("LM Studio API response parsing failed: "
                             ++ describe error))).

(** ** The tool handlers *)

(** The [echo] handler, the same in both revisions of [index.ts]. *)
Definition echo (text : string) : M ToolResult :=
  ret (text_result ("Echo: " ++ text)).

(** [models.length === 0]. *)
Definition length_is_zero (models : JSValue) : bool :=
  match models with
  | JArr items => (length items =? 0)%nat
  | JStr s => s =? ""
  | JObj props =>
      match lookup "length" props with
      | Some (JNum n) => number_is_zero Num n
      | _ => false
      end
  | _ => false
  end.

(** The receiver of [models.map(...)]: only an array has a [map]. *)
Definition array_items (models : JSValue) : Outcome (list JSValue) :=
  match models with
  | JArr items => Returned items
  | _ => Threw (TypeError "models.map is not a function")
  end.

Definition truthy_opt (v : option JSValue) : bool :=
  match v with
  | Some x => truthy x
  | None => false
  end.

(** [model.id || model.name || 'Unknown Model']. *)
Definition model_label (model : JSValue) : Outcome JSValue :=
  obind (get_prop model "id") (fun id =>
  obind (if truthy_opt id then Returned id else get_prop model "name") (fun id_or_name =>
  Returned (js_or id_or_name (JStr "Unknown Model")))).

(** The callback of [models.map]:
    [`${index + 1}. ${model.id || model.name || 'Unknown Model'}`]. *)
Definition model_line (model : JSValue) (index : nat) : Outcome string :=
  obind (model_label model) (fun label =>
  obind (ToString label) (fun s =>
  Returned (decimal (index + 1) ++ ". " ++ s))).

(** [items.map(callback)] from index [index] on; the first throw of the
    callback ends the loop. *)
Fixpoint map_indexed {A B : Type} (callback : A -> nat -> Outcome B)
    (index : nat) (items : list A) : Outcome (list B) :=
  match items with
  | [] => Returned []
  | x :: rest =>
      obind (callback x index) (fun y =>
      obind (map_indexed callback (index + 1) rest) (fun ys =>
      Returned (y :: ys)))
  end.

Definition no_models_text : string :=
  "No models found in LM Studio. Make sure you have loaded models in LM Studio.".

Definition lmstudio_list_models : M ToolResult :=
  try_catch
    (response <- makeRequest "/models" no_options ;;
     data <- lift (get_prop response "data") ;;
     let models := js_or data (JArr []) in
     if length_is_zero models then ret (text_result no_models_text)
     else
       items <- lift (array_items models) ;;
       lines <- lift (map_indexed model_line 0 items) ;;
       let modelList := join LF lines in
       ret (text_result ("Available LM Studio Models (" ++ decimal (length items)
                           ++ " total):" ++ LF ++ LF ++ modelList)))
    (fun error =>
       ret (text_result ("❌ Failed to list models" ++ LF ++ "Error: "
                           ++ describe error))).

(** A chat message as the object literal [{ role, content }]. *)
Definition message_json (m : ChatMessage.t) : JSValue :=
  JObj [("role", JStr (role_name (ChatMessage.role m)));
        ("content", JStr (ChatMessage.content m))].

(** The request body [{ model: "local-model", messages }]. *)
Definition chat_body (messages : list ChatMessage.t) : JSValue :=
  JObj [("model", JStr "local-model");
        ("messages", JArr (map message_json messages))].

(** The options of a chat call: [{ method: "POST", body: JSON.stringify(...) }]. *)
Definition chat_options (messages : list ChatMessage.t) : RequestOptions :=
  {| method := Some "POST"; headers := None;
     body := Some (JSON_stringify (chat_body messages)) |}.

(** [response.choices?.[0]?.message?.content]. *)
Definition first_choice_content (response : JSValue) : Outcome (option JSValue) :=
  obind (get_prop response "choices") (fun choices =>
  Returned (opt_prop (opt_prop (opt_first choices) "message") "content")).

Definition model_loaded_note : string :=
  LF ++ LF ++ "Note: Make sure a model is loaded and running in LM Studio.".

Definition lmstudio_get_current_model : M ToolResult :=
  try_catch
    (response <- makeRequest "/chat/completions"
                   (chat_options [ {| ChatMessage.role := user;
                                      ChatMessage.content := "What model are you?" |} ]) ;;
     model <- lift (get_prop response "model") ;;
     let modelInfo := js_or model (JStr "unknown") in
     content <- lift (first_choice_content response) ;;
     let message := js_or content (JStr "No response") in
     modelInfo_s <- lift (ToString modelInfo) ;;
     message_s <- lift (ToString message) ;;
     ret (text_result ("Current Model: " ++ modelInfo_s ++ LF ++ LF
                         ++ "Model Response: " ++ message_s)))
    (fun error =>
       ret (text_result ("❌ Failed to get current model" ++ LF ++ "Error: "
                           ++ describe error ++ model_loaded_note))).

(** The [messages] array of [lmstudio_chat_completion]: the system message
    is pushed when [system_prompt] is truthy, then the user message. *)
Definition chat_messages (prompt : string) (system_prompt : option string)
    : list ChatMessage.t :=
  let messages := [] in
  let messages :=
    match system_prompt with
    | Some s =>
        if s =? "" then messages
        else (messages ++ [ {| ChatMessage.role := system; ChatMessage.content := s |} ])%list
    | None => messages
    end in
  (messages ++ [ {| ChatMessage.role := user; ChatMessage.content := prompt |} ])%list.

Definition lmstudio_chat_completion (prompt : string) (system_prompt : option string)
    : M ToolResult :=
  try_catch
    (let messages := chat_messages prompt system_prompt in
     response <- makeRequest "/chat/completions" (chat_options messages) ;;
     content <- lift (first_choice_content response) ;;
     let completion := js_or content (JStr "No response generated") in
     model_field <- lift (get_prop response "model") ;;
     let model := js_or model_field (JStr "unknown") in
     usage_field <- lift (get_prop response "usage") ;;
     let usage := js_or usage_field (JObj []) in
     model_s <- lift (ToString model) ;;
     completion_s <- lift (ToString completion) ;;
     ret (text_result ("**Model:** " ++ model_s ++ LF ++ LF ++ "**Response:**" ++ LF
                         ++ completion_s ++ LF ++ LF ++ "**Usage:** "
                         ++ JSON_stringify_2 usage)))
    (fun error =>
       ret (text_result ("❌ Failed to generate completion" ++ LF ++ "Error: "
                           ++ describe error ++ model_loaded_note))).

(** ** The registry *)

(** A [tools/call] whose arguments have passed the tool's input schema. *)
Inductive ToolCall : Type :=
| call_echo (text : string)
| call_list_models
| call_get_current_model
| call_chat_completion (prompt : string) (system_prompt : option string).

(** The name a tool is registered under. *)
Definition tool_name (call : ToolCall) : string :=
  match call with
  | call_echo _ => "echo"
  | call_list_models => "lmstudio_list_models"
  | call_get_current_model => "lmstudio_get_current_model"
  | call_chat_completion _ _ => "lmstudio_chat_completion"
  end.

(** The tools that forward to LM Studio: all but [echo]. *)
Definition lmstudio_backed (call : ToolCall) : bool :=
  match call with
  | call_echo _ => false
  | _ => true
  end.

(** The handler registered for the tool. *)
Definition invoke (call : ToolCall) : M ToolResult :=
  match call with
  | call_echo text => echo text
  | call_list_models => lmstudio_list_models
  | call_get_current_model => lmstudio_get_current_model
  | call_chat_completion prompt system_prompt =>
      lmstudio_chat_completion prompt system_prompt
  end.

(** The outbound calls made while [m] runs from [w]. *)
Definition calls_during {A : Type} (m : M A) (w : World) : list Request :=
  skipn (length (outbound w)) (outbound (snd (m w))).

(** The call [makeRequest endpoint options] hands to [fetch] in [w]. *)
Definition forwarded_call (w : World) (endpoint : string) (options : RequestOptions)
    : Request :=
  {| url := request_url (skipn 2 (argv w)) endpoint; init := request_init options |}.

(** [w] after one more outbound call. *)
Definition logged (w : World) (request : Request) : World :=
  {| argv := argv w; network := network w;
     outbound := (outbound w ++ [request])%list |}.

(** The endpoint and options a tool's handler passes to [makeRequest];
    [echo] passes none. *)
Definition forwarded_arguments (call : ToolCall) : option (string * RequestOptions) :=
  match call with
  | call_echo _ => None
  | call_list_models => Some ("/models", no_options)
  | call_get_current_model =>
      Some ("/chat/completions",
            chat_options [ {| ChatMessage.role := user;
                              ChatMessage.content := "What model are you?" |} ])
  | call_chat_completion prompt system_prompt =>
      Some ("/chat/completions", chat_options (chat_messages prompt system_prompt))
  end.

(** A process started as [node index.js args...] whose every outbound call
    settles as [settled]; no call made yet. *)
Definition serving (args : list string) (settled : Outcome Response) : World :=
  {| argv := "node" :: "index.js" :: args;
     network := fun _ => settled;
     outbound := [] |}.

(** *** Responses as the source's interfaces type them *)

Definition string_or_absent (v : option JSValue) : bool :=
  match v with
  | None | Some (JStr _) => true
  | Some _ => false
  end.

(** An element of [data] typed as [interface LMStudioModel], as far as the
    handler reads it: an object whose [id] and [name], where present, are
    strings. *)
Definition is_model (m : JSValue) : bool :=
  match m with
  | JObj props =>
      string_or_absent (lookup "id" props) && string_or_absent (lookup "name" props)
  | _ => false
  end.

Definition string_field (key : string) (m : JSValue) : option string :=
  match m with
  | JObj props =>
      match lookup key props with
      | Some (JStr s) => Some s
      | _ => None
      end
  | _ => None
  end.

(** The identifier a line of the list shows for such an element: its [id],
    failing that its [name], failing that ['Unknown Model']. *)
Definition identifier (m : JSValue) : string :=
  string_or (string_field "id" m) (string_or (string_field "name" m) "Unknown Model").

(** What a chat handler prints for the model of a response with the
    properties [props]: ["unknown"] when [model] is missing, the model name
    when it is a non-empty string. *)
Inductive model_text (props : list (string * JSValue)) : string -> Prop :=
| model_missing :
    lookup "model" props = None -> model_text props "unknown"
| model_named (s : string) :
    lookup "model" props = Some (JStr s) -> s <> "" -> model_text props s.

(** What a chat handler prints for the reply: [fallback] when the chain
    [choices[0].message.content] is missing or empty at any link, the content
    when it is a non-empty string. *)
Inductive content_text (fallback : string) (props : list (string * JSValue))
    : string -> Prop :=
| choices_missing :
    lookup "choices" props = None -> content_text fallback props fallback
| choices_empty :
    lookup "choices" props = Some (JArr []) -> content_text fallback props fallback
| message_missing (choice : list (string * JSValue)) (rest : list JSValue) :
    lookup "choices" props = Some (JArr (JObj choice :: rest)) ->
    lookup "message" choice = None ->
    content_text fallback props fallback
| content_missing (choice message : list (string * JSValue)) (rest : list JSValue) :
    lookup "choices" props = Some (JArr (JObj choice :: rest)) ->
    lookup "message" choice = Some (JObj message) ->
    lookup "content" message = None ->
    content_text fallback props fallback
| content_empty (choice message : list (string * JSValue)) (rest : list JSValue) :
    lookup "choices" props = Some (JArr (JObj choice :: rest)) ->
    lookup "message" choice = Some (JObj message) ->
    lookup "content" message = Some (JStr "") ->
    content_text fallback props fallback
| content_present (choice message : list (string * JSValue)) (rest : list JSValue)
    (s : string) :
    lookup "choices" props = Some (JArr (JObj choice :: rest)) ->
    lookup "message" choice = Some (JObj message) ->
    lookup "content" message = Some (JStr s) -> s <> "" ->
    content_text fallback props s.

(** What [lmstudio_chat_completion] prints for the usage: the empty object
    when [usage] is missing, the indented object when it is one. *)
Inductive usage_text (props : list (string * JSValue)) : string -> Prop :=
| usage_missing :
    lookup "usage" props = None -> usage_text props "{}"
| usage_present (counters : list (string * JSValue)) :
    lookup "usage" props = Some (JObj counters) ->
    usage_text props (JSON_stringify_2 (JObj counters)).

(** A computation that leaves the process state alone. *)
Definition stateless {A : Type} (m : M A) : Prop :=
  forall w, snd (m w) = w.

(** A handler body all of whose results are single text blocks. *)
Definition yields_text (m : M ToolResult) : Prop :=
  forall w a, fst (m w) = Returned a -> exists t, a = text_result t.

(** *** The earlier revision of [index.ts] *)

(** The [LM_STUDIO_BASE_URL] of the earlier revision, with [/v1] built in. *)
Definition legacy_LM_STUDIO_BASE_URL : string := "http://localhost:1234/v1".

(** The [makeRequest] of the earlier revision: the same forwarder on a fixed
    base URL, reading no command-line argument. *)
Definition legacy_makeRequest (endpoint : string) (options : RequestOptions)
    : M JSValue :=
  response <-
    try_catch (fetch (legacy_LM_STUDIO_BASE_URL ++ endpoint) (request_init options))
      (fun error =>
         throw (new_Error ("LM Studio API request failed: " ++ describe error))) ;;
  if negb (ok response) then
    throw (new_Error ("LM Studio API request failed: HTTP "
                        ++ decimal (status response) ++ ": " ++ statusText response))
  else
    try_catch (response_json response)
      (fun error =>
         throw (new_Error ("LM Studio API response parsing failed: "
                             ++ describe error))).

(** The [lmstudio_health_check] tool of the earlier revision. *)
Definition lmstudio_health_check : M ToolResult :=
  try_catch
    (response <- legacy_makeRequest "/models" no_options ;;
     ret (text_result ("✅ LM Studio API is running and accessible" ++ LF
                         ++ "Base URL: " ++ legacy_LM_STUDIO_BASE_URL ++ LF
                         ++ "Response: " ++ JSON_stringify_2 response)))
    (fun error =>
       ret (text_result ("❌ LM Studio API is not accessible" ++ LF
                           ++ "Base URL: " ++ legacy_LM_STUDIO_BASE_URL ++ LF
                           ++ "Error: " ++ describe error))).

(** *** Notions the further properties are stated with *)

(** A parsed response that is neither [null] nor an object: a boolean, a
    number, a string or an array. *)
Definition not_an_object (response : JSValue) : bool :=
  match response with
  | JNull | JObj _ => false
  | _ => true
  end.

(** [v] is not an array. *)
Definition not_an_array (v : JSValue) : bool :=
  match v with
  | JArr _ => false
  | _ => true
  end.

(** The chain [choices[0].message.content] holds [null] at some link. *)
Inductive null_link (props : list (string * JSValue)) : Prop :=
| choices_null :
    lookup "choices" props = Some JNull -> null_link props
| choice_null (rest : list JSValue) :
    lookup "choices" props = Some (JArr (JNull :: rest)) -> null_link props
| message_null (choice : list (string * JSValue)) (rest : list JSValue) :
    lookup "choices" props = Some (JArr (JObj choice :: rest)) ->
    lookup "message" choice = Some JNull ->
    null_link props
| content_null (choice message : list (string * JSValue)) (rest : list JSValue) :
    lookup "choices" props = Some (JArr (JObj choice :: rest)) ->
    lookup "message" choice = Some (JObj message) ->
    lookup "content" message = Some JNull ->
    null_link props.

(** No byte of [s] is a control character (below 32). *)
Fixpoint no_control (s : string) : bool :=
  match s with
  | "" => true
  | String c rest => (32 <=? nat_of_ascii c)%nat && no_control rest
  end.

Definition hex_value (c : ascii) : option nat :=
  let n := nat_of_ascii c in
  if (48 <=? n)%nat && (n <=? 57)%nat then Some (n - 48)
  else if (97 <=? n)%nat && (n <=? 102)%nat then Some (n - 87)
  else None.

(** Reads one quoted character back: the inverse of [quote_char], by which
    quoting is shown to lose nothing.  [None] at the closing quote. *)
Definition unquote_head (s : string) : option (ascii * string) :=
  match s with
  | "" => None
  | String c rest =>
      if Nat.eqb (nat_of_ascii c) 92 then
        match rest with
        | "" => None
        | String e rest' =>
            let k := nat_of_ascii e in
            if Nat.eqb k 98 then Some (ascii_of_nat 8, rest')
            else if Nat.eqb k 116 then Some (ascii_of_nat 9, rest')
            else if Nat.eqb k 110 then Some (ascii_of_nat 10, rest')
            else if Nat.eqb k 102 then Some (ascii_of_nat 12, rest')
            else if Nat.eqb k 114 then Some (ascii_of_nat 13, rest')
            else if Nat.eqb k 34 then Some (e, rest')
            else if Nat.eqb k 92 then Some (e, rest')
            else if Nat.eqb k 117 then
              match rest' with
              | String z1 (String z2 (String h1 (String h2 rest''))) =>
                  match hex_value z1, hex_value z2, hex_value h1, hex_value h2 with
                  | Some 0, Some 0, Some a, Some b =>
                      Some (ascii_of_nat (16 * a + b), rest'')
                  | _, _, _, _ => None
                  end
              | _ => None
              end
            else None
        end
      else if Nat.eqb (nat_of_ascii c) 34 then None
      else Some (c, rest)
  end.

(** The text of one message inside a request body. *)
Definition message_text (m : ChatMessage.t) : string :=
  "{" ++ QuoteJSONString "role" ++ ":" ++ QuoteJSONString (role_name (ChatMessage.role m))
      ++ "," ++ QuoteJSONString "content" ++ ":"
      ++ QuoteJSONString (ChatMessage.content m) ++ "}".

(** The text a tool returns when the response carries none of the fields
    its handler reads. *)
Definition fallback_text (call : ToolCall) : string :=
  match call with
  | call_echo t => "Echo: " ++ t
  | call_list_models => no_models_text
  | call_get_current_model =>
      "Current Model: unknown" ++ LF ++ LF ++ "Model Response: No response"
  | call_chat_completion _ _ =>
      "**Model:** unknown" ++ LF ++ LF ++ "**Response:**" ++ LF
        ++ "No response generated" ++ LF ++ LF ++ "**Usage:** {}"
  end.

(** [d] is the decimal numeral of [n], read back as the standard library
    reads numerals: digits only, no leading zero. *)
Definition numeral_of (n : nat) (d : string) : Prop :=
  NilEmpty.uint_of_string d = Some (Nat.to_uint n).

(** The line feed, character 10, as the statements spell it. *)
Definition newline : string := String (ascii_of_nat 10) "".




(** ** Basic facts *)

Lemma append_assoc (a b c : string) : (a ++ b) ++ c = a ++ b ++ c.
Proof.
  induction a as [|ch a IH]; simpl; [reflexivity | now rewrite IH].
Qed.

Lemma append_nil_r (a : string) : a ++ "" = a.
Proof.
  induction a as [|ch a IH]; simpl; [reflexivity | now rewrite IH].
Qed.

Lemma skipn_past {A : Type} (l extra : list A) :
  skipn (length l) (l ++ extra)%list = extra.
Proof.
  induction l as [|x l IH]; simpl; [reflexivity | exact IH].
Qed.

Lemma findIndex_absent {A : Type} (p : A -> bool) (l : list A) :
  (forall x, In x l -> p x = false) -> findIndex p l = None.
Proof.
  induction l as [|x l IH]; intros H; simpl; [reflexivity|].
  rewrite (H x (or_introl eq_refl)), IH; [reflexivity|].
  intros y Hy. apply H. now right.
Qed.

Lemma findIndex_first {A : Type} (p : A -> bool) (pre : list A) (x : A) (post : list A) :
  (forall y, In y pre -> p y = false) -> p x = true ->
  findIndex p (pre ++ x :: post)%list = Some (length pre).
Proof.
  induction pre as [|y pre IH]; intros Hpre Hx; simpl.
  - now rewrite Hx.
  - rewrite (Hpre y (or_introl eq_refl)), IH; [reflexivity | | exact Hx].
    intros z Hz. apply Hpre. now right.
Qed.

Lemma not_base_url (pre : list string) :
  ~ In "--base-url" pre ->
  forall y, In y pre -> (y =? "--base-url") = false.
Proof.
  intros H y Hy. apply String.eqb_neq. intros ->. now apply H.
Qed.

(** *** The monad *)

Lemma stateless_ret {A : Type} (a : A) : stateless (ret a).
Proof. now intros w. Qed.

Lemma stateless_throw {A : Type} (e : Thrown) : stateless (@throw A e).
Proof. now intros w. Qed.

Lemma stateless_lift {A : Type} (o : Outcome A) : stateless (lift o).
Proof. now intros w. Qed.

Lemma stateless_bind {A B : Type} (m : M A) (k : A -> M B) :
  stateless m -> (forall a, stateless (k a)) -> stateless (bind m k).
Proof.
  intros Hm Hk w. unfold bind. specialize (Hm w).
  destruct (m w) as [[a|e] w']; simpl in *; subst; [apply Hk | reflexivity].
Qed.

Lemma stateless_if {A : Type} (b : bool) (m1 m2 : M A) :
  stateless m1 -> stateless m2 -> stateless (if b then m1 else m2).
Proof. now destruct b. Qed.

Lemma yields_text_ret (t : string) : yields_text (ret (text_result t)).
Proof. intros w a H. simpl in H. injection H as <-. now exists t. Qed.

Lemma yields_text_bind {A : Type} (m : M A) (k : A -> M ToolResult) :
  (forall a, yields_text (k a)) -> yields_text (bind m k).
Proof.
  intros Hk w a. unfold bind.
  destruct (m w) as [[x|e] w']; simpl; [apply Hk | discriminate].
Qed.

Lemma yields_text_if (b : bool) (m1 m2 : M ToolResult) :
  yields_text m1 -> yields_text m2 -> yields_text (if b then m1 else m2).
Proof. now destruct b. Qed.

(** Walks a handler body made of [bind], [lift], [ret] and conditionals. *)
Ltac handler_body :=
  repeat (cbv beta zeta;
          first [ apply stateless_ret | apply stateless_throw | apply stateless_lift
                | apply stateless_if | apply stateless_bind
                | apply yields_text_ret | apply yields_text_if
                | apply yields_text_bind
                | intro ]).

(** A handler of the source's shape, [try { r = await forward; k r } catch
    { h }] with [k] and [h] making no call of their own, leaves the state
    [forward] leaves. *)
Lemma forwarding_world {A B : Type} (forward : M A) (k : A -> M B)
    (h : Thrown -> M B) (w : World) :
  (forall a, stateless (k a)) -> (forall e, stateless (h e)) ->
  snd (try_catch (bind forward k) h w) = snd (forward w).
Proof.
  intros Hk Hh. unfold try_catch, bind.
  destruct (forward w) as [[a|e] w']; simpl.
  - specialize (Hk a w'). destruct (k a w') as [[b|e] w'']; simpl in *; subst.
    + reflexivity.
    + apply Hh.
  - apply Hh.
Qed.

(** Such a handler, when [h] returns a text block, returns a text block
    whatever happens. *)
Lemma forwarding_returns (body : M ToolResult) (f : Thrown -> string) (w : World) :
  yields_text body ->
  exists t, fst (try_catch body (fun error => ret (text_result (f error))) w)
            = Returned (text_result t).
Proof.
  intros Hb. unfold try_catch. specialize (Hb w).
  destruct (body w) as [[a|e] w']; simpl in *.
  - destruct (Hb a eq_refl) as [t ->]. now exists t.
  - now exists (f e).
Qed.

(** When [forward] throws, the handler's result is what [h] makes of it. *)
Lemma forwarding_caught {A B : Type} (forward : M A) (k : A -> M B)
    (h : Thrown -> M B) (w : World) (error : Thrown) :
  fst (forward w) = Threw error ->
  fst (try_catch (bind forward k) h w) = fst (h error (snd (forward w))).
Proof.
  unfold try_catch, bind.
  destruct (forward w) as [[a|e] w']; simpl; [discriminate|].
  now intros [= ->].
Qed.

(** *** The forwarder *)

Lemma makeRequest_world (endpoint : string) (options : RequestOptions) (w : World) :
  snd (makeRequest endpoint options w) = logged w (forwarded_call w endpoint options).
Proof.
  unfold makeRequest, bind, try_catch, process_argv_slice_2, fetch, throw,
    response_json, lift, forwarded_call, logged. simpl.
  destruct (network w _) as [response|error]; simpl; [|reflexivity].
  destruct (ok response); simpl; [|reflexivity].
  destruct (json response); reflexivity.
Qed.

Lemma makeRequest_calls (endpoint : string) (options : RequestOptions) (w : World) :
  calls_during (makeRequest endpoint options) w = [forwarded_call w endpoint options].
Proof.
  unfold calls_during. rewrite makeRequest_world. simpl. apply skipn_past.
Qed.

Lemma makeRequest_rejected endpoint options w error :
  network w (forwarded_call w endpoint options) = Threw error ->
  fst (makeRequest endpoint options w)
  = Threw (new_Error ("LM Studio API request failed: " ++ describe error)).
Proof.
  intros H. unfold forwarded_call in H.
  unfold makeRequest, bind, try_catch, process_argv_slice_2, fetch.
  now rewrite H.
Qed.

Lemma makeRequest_http_error endpoint options w response :
  network w (forwarded_call w endpoint options) = Returned response ->
  ok response = false ->
  fst (makeRequest endpoint options w)
  = Threw (new_Error ("LM Studio API request failed: HTTP "
                        ++ decimal (status response) ++ ": " ++ statusText response)).
Proof.
  intros H Hok. unfold forwarded_call in H.
  unfold makeRequest, bind, try_catch, process_argv_slice_2, fetch.
  rewrite H. cbn iota. now rewrite Hok.
Qed.

Lemma makeRequest_unparsable endpoint options w response error :
  network w (forwarded_call w endpoint options) = Returned response ->
  ok response = true -> json response = Threw error ->
  fst (makeRequest endpoint options w)
  = Threw (new_Error ("LM Studio API response parsing failed: " ++ describe error)).
Proof.
  intros H Hok Hjson. unfold forwarded_call in H.
  unfold makeRequest, bind, try_catch, process_argv_slice_2, fetch.
  rewrite H. cbn iota. rewrite Hok. cbn [negb].
  unfold response_json, lift. now rewrite Hjson.
Qed.

Lemma makeRequest_parsed endpoint options w response value :
  network w (forwarded_call w endpoint options) = Returned response ->
  ok response = true -> json response = Returned value ->
  fst (makeRequest endpoint options w) = Returned value.
Proof.
  intros H Hok Hjson. unfold forwarded_call in H.
  unfold makeRequest, bind, try_catch, process_argv_slice_2, fetch.
  rewrite H. cbn iota. rewrite Hok. cbn [negb].
  unfold response_json, lift. now rewrite Hjson.
Qed.

Lemma ok_false_iff (response : Response) :
  ok response = false <-> (status response < 200 \/ 300 <= status response).
Proof.
  unfold ok. rewrite andb_false_iff, Nat.leb_gt, Nat.ltb_ge. reflexivity.
Qed.

Lemma baseUrlFromArgs_absent (args : list string) :
  ~ In "--base-url" args -> baseUrlFromArgs args = None.
Proof.
  intros H. unfold baseUrlFromArgs.
  now rewrite (findIndex_absent _ args (not_base_url args H)).
Qed.

Lemma baseUrlFromArgs_last (pre : list string) :
  ~ In "--base-url" pre -> baseUrlFromArgs (pre ++ ["--base-url"])%list = None.
Proof.
  intros H. unfold baseUrlFromArgs.
  rewrite (findIndex_first _ pre "--base-url" [] (not_base_url pre H) eq_refl).
  rewrite length_app. simpl.
  now rewrite Nat.ltb_irrefl.
Qed.

Lemma baseUrlFromArgs_value (pre : list string) (value : string) (post : list string) :
  ~ In "--base-url" pre ->
  baseUrlFromArgs (pre ++ "--base-url" :: value :: post)%list = Some value.
Proof.
  intros H. unfold baseUrlFromArgs.
  rewrite (findIndex_first _ pre "--base-url" (value :: post) (not_base_url pre H) eq_refl).
  rewrite length_app. simpl.
  replace (length pre + 1 <? length pre + S (S (length post)))%nat with true
    by (symmetry; apply Nat.ltb_lt; lia).
  rewrite nth_error_app2 by lia.
  now replace (length pre + 1 - length pre) with 1 by lia.
Qed.

(** *** The handlers *)

Lemma list_models_world (w : World) :
  snd (lmstudio_list_models w) = snd (makeRequest "/models" no_options w).
Proof.
  unfold lmstudio_list_models. apply forwarding_world; intros; handler_body.
Qed.

Lemma get_current_model_world (w : World) :
  snd (lmstudio_get_current_model w)
  = snd (makeRequest "/chat/completions"
           (chat_options [ {| ChatMessage.role := user;
                              ChatMessage.content := "What model are you?" |} ]) w).
Proof.
  unfold lmstudio_get_current_model. apply forwarding_world; intros; handler_body.
Qed.

Lemma chat_completion_world (prompt : string) (system_prompt : option string) (w : World) :
  snd (lmstudio_chat_completion prompt system_prompt w)
  = snd (makeRequest "/chat/completions"
           (chat_options (chat_messages prompt system_prompt)) w).
Proof.
  unfold lmstudio_chat_completion. cbv zeta.
  apply forwarding_world; intros; handler_body.
Qed.

Lemma invoke_world (call : ToolCall) (w : World) :
  snd (invoke call w)
  = match forwarded_arguments call with
    | Some (endpoint, options) => snd (makeRequest endpoint options w)
    | None => w
    end.
Proof.
  destruct call; simpl.
  - reflexivity.
  - apply list_models_world.
  - apply get_current_model_world.
  - apply chat_completion_world.
Qed.

Lemma invoke_calls (call : ToolCall) (w : World) :
  calls_during (invoke call) w
  = match forwarded_arguments call with
    | Some (endpoint, options) => [forwarded_call w endpoint options]
    | None => []
    end.
Proof.
  unfold calls_during. rewrite invoke_world.
  destruct (forwarded_arguments call) as [[endpoint options]|].
  - rewrite makeRequest_world. simpl. apply skipn_past.
  - rewrite <- (app_nil_r (outbound w)) at 2. apply skipn_past.
Qed.

Lemma invoke_returns_text (call : ToolCall) (w : World) :
  exists t, fst (invoke call w) = Returned (text_result t).
Proof.
  destruct call as [t| | |prompt system_prompt]; simpl.
  - now exists ("Echo: " ++ t).
  - unfold lmstudio_list_models. apply forwarding_returns. handler_body.
  - unfold lmstudio_get_current_model. apply forwarding_returns. handler_body.
  - unfold lmstudio_chat_completion. cbv zeta. apply forwarding_returns. handler_body.
Qed.

Lemma contains_trans (a b c : string) : contains a b -> contains b c -> contains a c.
Proof.
  intros (p1 & q1 & ->) (p2 & q2 & ->).
  exists (p2 ++ p1), (q1 ++ q2). now rewrite !append_assoc.
Qed.

(** The text a forwarding tool returns when its [makeRequest] throws. *)
Lemma invoke_failure_text (call : ToolCall) (endpoint : string)
    (options : RequestOptions) (w : World) (error : Thrown) :
  forwarded_arguments call = Some (endpoint, options) ->
  fst (makeRequest endpoint options w) = Threw error ->
  exists t, fst (invoke call w) = Returned (text_result t)
            /\ begins_with "❌ Failed to" t /\ contains (describe error) t.
Proof.
  intros Hcall Hthrown.
  destruct call; simpl in Hcall; [discriminate| | |];
    injection Hcall as <- <-; simpl invoke.
  - unfold lmstudio_list_models.
    rewrite (forwarding_caught _ _ _ w error Hthrown). simpl.
    eexists. split; [reflexivity|]. split.
    + eexists. simpl. reflexivity.
    + exists ("❌ Failed to list models" ++ LF ++ "Error: "), "".
      now rewrite append_nil_r.
  - unfold lmstudio_get_current_model.
    rewrite (forwarding_caught _ _ _ w error Hthrown). simpl.
    eexists. split; [reflexivity|]. split.
    + eexists. simpl. reflexivity.
    + now exists ("❌ Failed to get current model" ++ LF ++ "Error: "), model_loaded_note.
  - unfold lmstudio_chat_completion. cbv zeta.
    rewrite (forwarding_caught _ _ _ w error Hthrown). simpl.
    eexists. split; [reflexivity|]. split.
    + eexists. simpl. reflexivity.
    + now exists ("❌ Failed to generate completion" ++ LF ++ "Error: "), model_loaded_note.
Qed.

Lemma model_line_typed (m : JSValue) (index : nat) :
  is_model m = true ->
  model_line m index = Returned (decimal (index + 1) ++ ". " ++ identifier m).
Proof.
  destruct m as [| | | |items|props]; try discriminate. simpl.
  unfold model_line, model_label, identifier, string_field, get_prop. simpl.
  intros H. apply andb_true_iff in H. destruct H as [Hid Hname].
  destruct (lookup "id" props) as [[| | |id| |]|]; try discriminate;
    destruct (lookup "name" props) as [[| | |name| |]|]; try discriminate; simpl;
    repeat match goal with
           | |- context [?x =? ""] =>
               let E := fresh "E" in destruct (x =? "") eqn:E; simpl; rewrite ?E; simpl
           end; reflexivity.
Qed.

Lemma map_indexed_typed (items : list JSValue) (index : nat) :
  Forall (fun m => is_model m = true) items ->
  exists lines,
    map_indexed model_line index items = Returned lines
    /\ length lines = length items
    /\ forall k m, nth_error items k = Some m ->
         nth_error lines k = Some (decimal (index + k + 1) ++ ". " ++ identifier m).
Proof.
  intros H. revert index.
  induction H as [|m items Hm Hitems IH]; intros index.
  - exists []. repeat split. intros [|k] m H; discriminate.
  - destruct (IH (index + 1)) as (lines & Hlines & Hlen & Hnth).
    exists ((decimal (index + 1) ++ ". " ++ identifier m) :: lines).
    simpl. rewrite (model_line_typed m index Hm). simpl. rewrite Hlines. simpl.
    repeat split.
    + now rewrite Hlen.
    + intros [|k] m' Hk; simpl in *.
      * injection Hk as <-. now rewrite Nat.add_0_r.
      * rewrite (Hnth k m' Hk). now replace (index + 1 + k + 1) with (index + S k + 1) by lia.
Qed.

Lemma model_text_sound (props : list (string * JSValue)) (t : string) :
  model_text props t ->
  ToString (js_or (lookup "model" props) (JStr "unknown")) = Returned t.
Proof.
  intros [H | s H Hs]; rewrite H; simpl; [reflexivity|].
  apply String.eqb_neq in Hs. now rewrite Hs.
Qed.

Lemma content_text_sound (fallback : string) (props : list (string * JSValue))
    (t : string) :
  content_text fallback props t ->
  ToString (js_or (opt_prop (opt_prop (opt_first (lookup "choices" props)) "message")
                     "content") (JStr fallback))
  = Returned t.
Proof.
  intros [H | H | choice rest H Hm | choice message rest H Hm Hc
          | choice message rest H Hm Hc | choice message rest s H Hm Hc Hs];
    rewrite H; simpl; try reflexivity; rewrite Hm; simpl; try reflexivity;
    rewrite Hc; simpl; try reflexivity.
  apply String.eqb_neq in Hs. now rewrite Hs.
Qed.

Lemma usage_text_sound (props : list (string * JSValue)) (t : string) :
  usage_text props t ->
  JSON_stringify_2 (js_or (lookup "usage" props) (JObj [])) = t.
Proof.
  intros [H | counters H]; rewrite H; reflexivity.
Qed.

(** A handler whose [makeRequest] returned [response] continues with its
    formatting code. *)
Lemma forwarding_continues {A B : Type} (forward : M A) (k : A -> M B)
    (h : Thrown -> M B) (w : World) (response : A) :
  fst (forward w) = Returned response ->
  fst (try_catch (bind forward k) h w)
  = fst (try_catch (k response) h (snd (forward w))).
Proof.
  unfold try_catch, bind.
  destruct (forward w) as [[a|e] w']; simpl; [|discriminate].
  now intros [= ->].
Qed.

Lemma message_json_text (m : ChatMessage.t) :
  SerializeJSON "" "" (message_json m) = message_text m.
Proof.
  destruct m as [r c]. unfold message_json, message_text, QuoteJSONString. simpl.
  repeat (rewrite append_assoc; simpl). reflexivity.
Qed.

Lemma chat_body_text (messages : list ChatMessage.t) :
  JSON_stringify (chat_body messages)
  = "{" ++ QuoteJSONString "model" ++ ":" ++ QuoteJSONString "local-model" ++ ","
        ++ QuoteJSONString "messages" ++ ":"
        ++ match messages with
           | [] => "[]"
           | _ => "[" ++ join "," (map message_text messages) ++ "]"
           end
        ++ "}".
Proof.
  assert (H : map (SerializeJSON "" "") (map message_json messages)
              = map message_text messages).
  { rewrite map_map. apply map_ext. intros m. apply message_json_text. }
  destruct messages as [|m messages]; [reflexivity|].
  change (JSON_stringify (chat_body (m :: messages)))
    with ("{" ++ join ","
            [ QuoteJSONString "model" ++ ":" ++ "" ++ QuoteJSONString "local-model";
              QuoteJSONString "messages" ++ ":" ++ ""
                ++ "[" ++ join "," (map (SerializeJSON "" "")
                                      (map message_json (m :: messages))) ++ "]" ]
            ++ "}").
  rewrite H. unfold join, QuoteJSONString. cbn [String.concat].
  set (inner := String.concat "," (map message_text (m :: messages))).
  simpl. repeat (rewrite append_assoc; simpl). reflexivity.
Qed.

Lemma decimal_numeral (n : nat) : numeral_of n (decimal n).
Proof. unfold numeral_of, decimal. apply NilEmpty.usu. Qed.





(** ** The properties *)

(** C3 (as amended).  [makeRequest] calls [fetch] once, on a URL resolved
    from the command line: when the first [--base-url] is followed by a
    non-empty argument, that argument, then [/v1], then the endpoint; when
    there is no [--base-url], or the first one is the last argument, or the
    argument after it is empty, [http://localhost:1234], then [/v1], then the
    endpoint. *)
Theorem base_url_resolution (endpoint : string) (options : RequestOptions) (w : World) :
  (forall pre value post,
      skipn 2 (argv w) = (pre ++ "--base-url" :: value :: post)%list ->
      ~ In "--base-url" pre -> value <> "" ->
      calls_during (makeRequest endpoint options) w
      = [ {| url := value ++ "/v1" ++ endpoint; init := request_init options |} ])
  /\ (~ In "--base-url" (skipn 2 (argv w))
      \/ (exists pre, skipn 2 (argv w) = (pre ++ ["--base-url"])%list
                       /\ ~ In "--base-url" pre)
      \/ (exists pre post, skipn 2 (argv w) = (pre ++ "--base-url" :: "" :: post)%list
                            /\ ~ In "--base-url" pre) ->
      calls_during (makeRequest endpoint options) w
      = [ {| url := "http://localhost:1234" ++ "/v1" ++ endpoint;
             init := request_init options |} ]).
Proof.
  rewrite makeRequest_calls. unfold forwarded_call, request_url. split.
  - intros pre value post -> Hpre Hvalue.
    rewrite (baseUrlFromArgs_value pre value post Hpre). simpl.
    apply String.eqb_neq in Hvalue. now rewrite Hvalue.
  - intros [H | [(pre & -> & Hpre) | (pre & post & -> & Hpre)]].
    + now rewrite (baseUrlFromArgs_absent _ H).
    + now rewrite (baseUrlFromArgs_last pre Hpre).
    + now rewrite (baseUrlFromArgs_value pre "" post Hpre).
Qed.

(** C10 (as amended).  When [--base-url] is the final command-line argument,
    with no value after it, and no earlier argument is [--base-url],
    [makeRequest] makes its call on the default base URL
    [http://localhost:1234]. *)
Theorem base_url_without_value (endpoint : string) (options : RequestOptions)
    (w : World) (pre : list string) :
  skipn 2 (argv w) = (pre ++ ["--base-url"])%list ->
  ~ In "--base-url" pre ->
  calls_during (makeRequest endpoint options) w
  = [ {| url := "http://localhost:1234" ++ "/v1" ++ endpoint;
         init := request_init options |} ].
Proof.
  intros Hargs Hpre. rewrite makeRequest_calls.
  unfold forwarded_call, request_url.
  now rewrite Hargs, (baseUrlFromArgs_last pre Hpre).
Qed.

(** C5.  [makeRequest] sorts what its call settles to into four outcomes,
    three of them errors and no others.  A rejected [fetch] becomes a new
    [Error] whose message is "LM Studio API request failed: " followed by the
    rejection's message (or its rendering, when it is not an [Error]); a
    status outside 200-299 becomes an [Error] whose message carries the
    decimal numeral of the status code and the status text; a body
    [response.json()] rejects becomes an [Error] "LM Studio API response
    parsing failed: " followed by that rejection's message; otherwise the
    parsed value is returned. *)
Theorem makeRequest_classification (endpoint : string) (options : RequestOptions)
    (w : World) :
  (forall message,
      network w (forwarded_call w endpoint options) = Threw (ErrorInstance message)
      \/ network w (forwarded_call w endpoint options) = Threw (NonError message) ->
      fst (makeRequest endpoint options w)
      = Threw (ErrorInstance ("LM Studio API request failed: " ++ message)))
  /\ (forall response,
      network w (forwarded_call w endpoint options) = Returned response ->
      status response < 200 \/ 300 <= status response ->
      exists d,
        numeral_of (status response) d
        /\ fst (makeRequest endpoint options w)
           = Threw (ErrorInstance ("LM Studio API request failed: HTTP "
                                     ++ d ++ ": " ++ statusText response)))
  /\ (forall response message,
      network w (forwarded_call w endpoint options) = Returned response ->
      200 <= status response < 300 ->
      json response = Threw (ErrorInstance message)
      \/ json response = Threw (NonError message) ->
      fst (makeRequest endpoint options w)
      = Threw (ErrorInstance ("LM Studio API response parsing failed: " ++ message)))
  /\ (forall response value,
      network w (forwarded_call w endpoint options) = Returned response ->
      200 <= status response < 300 ->
      json response = Returned value ->
      fst (makeRequest endpoint options w) = Returned value)
  /\ (forall thrown,
      fst (makeRequest endpoint options w) = Threw thrown ->
      (exists message,
          (network w (forwarded_call w endpoint options) = Threw (ErrorInstance message)
           \/ network w (forwarded_call w endpoint options) = Threw (NonError message))
          /\ thrown = ErrorInstance ("LM Studio API request failed: " ++ message))
      \/ (exists response d,
          network w (forwarded_call w endpoint options) = Returned response
          /\ (status response < 200 \/ 300 <= status response)
          /\ numeral_of (status response) d
          /\ thrown = ErrorInstance ("LM Studio API request failed: HTTP "
                                       ++ d ++ ": " ++ statusText response))
      \/ (exists response message,
          network w (forwarded_call w endpoint options) = Returned response
          /\ 200 <= status response < 300
          /\ (json response = Threw (ErrorInstance message)
              \/ json response = Threw (NonError message))
          /\ thrown = ErrorInstance ("LM Studio API response parsing failed: "
                                       ++ message))).
Proof.
  assert (Hrange : forall response,
             200 <= status response < 300 -> ok response = true).
  { intros response [Hlo Hhi]. unfold ok.
    apply andb_true_iff. split; [now apply Nat.leb_le | now apply Nat.ltb_lt]. }
  split; [|split; [|split; [|split]]].
  - intros message [H | H];
      now rewrite (makeRequest_rejected _ _ _ _ H).
  - intros response H Hstatus. exists (decimal (status response)).
    split; [apply decimal_numeral|].
    apply makeRequest_http_error; [exact H | now apply ok_false_iff].
  - intros response message H Hstatus [Hjson | Hjson];
      now rewrite (makeRequest_unparsable _ _ _ response _ H (Hrange _ Hstatus) Hjson).
  - intros response value H Hstatus Hjson.
    now apply (makeRequest_parsed _ _ _ response); auto.
  - intros thrown Hthrown.
    destruct (network w (forwarded_call w endpoint options)) as [response|error] eqn:Hnet.
    + destruct (ok response) eqn:Hok.
      * destruct (json response) as [value|error] eqn:Hjson.
        -- rewrite (makeRequest_parsed _ _ _ response value Hnet Hok Hjson) in Hthrown.
           discriminate.
        -- rewrite (makeRequest_unparsable _ _ _ response error Hnet Hok Hjson) in Hthrown.
           injection Hthrown as <-. right. right. exists response, (describe error).
           unfold ok in Hok. apply andb_true_iff in Hok. destruct Hok as [Hlo Hhi].
           apply Nat.leb_le in Hlo. apply Nat.ltb_lt in Hhi.
           split; [reflexivity|]. split; [now split|].
           split; [|reflexivity].
           destruct error; [now left | now right].
      * rewrite (makeRequest_http_error _ _ _ response Hnet Hok) in Hthrown.
        injection Hthrown as <-. right. left.
        exists response, (decimal (status response)).
        split; [reflexivity|]. split; [now apply ok_false_iff|].
        split; [apply decimal_numeral | reflexivity].
    + rewrite (makeRequest_rejected _ _ _ error Hnet) in Hthrown.
      injection Hthrown as <-. left. exists (describe error).
      split; [|reflexivity].
      destruct error; [now left | now right].
Qed.

(** C6.  For every string [t], the [echo] tool called with [{ text: t }]
    returns the single text block ["Echo: " + t]; it never throws and makes
    no outbound call. *)
Theorem echo_returns_text (t : string) (w : World) :
  invoke (call_echo t) w
  = (Returned {| content := [ {| type := "text"; text := "Echo: " ++ t |} ] |}, w).
Proof. reflexivity. Qed.

(** C7 (as amended).  An invocation of a tool that forwards to LM Studio
    makes exactly one outbound call, the one its handler passes to
    [makeRequest]; an invocation of [echo] makes none. *)
Theorem one_call_per_forwarding_tool (call : ToolCall) (w : World) :
  calls_during (invoke call) w
  = match forwarded_arguments call with
    | Some (endpoint, options) => [forwarded_call w endpoint options]
    | None => []
    end
  /\ length (calls_during (invoke call) w) = (if lmstudio_backed call then 1 else 0).
Proof.
  rewrite invoke_calls. split; [reflexivity|].
  now destruct call.
Qed.



(** C1.  Every tool that forwards to LM Studio ([lmstudio_list_models],
    [lmstudio_get_current_model], [lmstudio_chat_completion]) returns a
    result holding a single text block whatever happens, so never throws past
    its handler.  Whatever the forwarder throws is an [Error]; the text then
    begins with the failure indicator and contains the error's message.  When
    the outbound call answers with a status outside 200-299, the text
    contains [HTTP], the decimal numeral of the status code and the status
    text: for status 500, [HTTP 500]. *)
Theorem failures_become_text (call : ToolCall) (endpoint : string)
    (options : RequestOptions) (w : World) :
  forwarded_arguments call = Some (endpoint, options) ->
  (exists t,
      fst (invoke call w)
      = Returned {| content := [ {| type := "text"; text := t |} ] |})
  /\ (forall thrown,
      fst (makeRequest endpoint options w) = Threw thrown ->
      exists message, thrown = ErrorInstance message)
  /\ (forall message,
      fst (makeRequest endpoint options w) = Threw (ErrorInstance message) ->
      exists t,
        fst (invoke call w)
        = Returned {| content := [ {| type := "text"; text := t |} ] |}
        /\ begins_with "❌ Failed to" t
        /\ contains message t)
  /\ (forall response,
      network w (forwarded_call w endpoint options) = Returned response ->
      status response < 200 \/ 300 <= status response ->
      exists d t,
        numeral_of (status response) d
        /\ fst (invoke call w)
           = Returned {| content := [ {| type := "text"; text := t |} ] |}
        /\ begins_with "❌ Failed to" t
        /\ contains ("HTTP " ++ d ++ ": " ++ statusText response) t)
  /\ (forall response,
      network w (forwarded_call w endpoint options) = Returned response ->
      status response = 500 ->
      exists t,
        fst (invoke call w)
        = Returned {| content := [ {| type := "text"; text := t |} ] |}
        /\ begins_with "❌ Failed to" t
        /\ contains "HTTP 500" t).
Proof.
  intros Hcall.
  assert (Hhttp : forall response,
             network w (forwarded_call w endpoint options) = Returned response ->
             status response < 200 \/ 300 <= status response ->
             exists t,
               fst (invoke call w) = Returned (text_result t)
               /\ begins_with "❌ Failed to" t
               /\ contains ("HTTP " ++ decimal (status response) ++ ": "
                              ++ statusText response) t).
  { intros response Hnet Hstatus. apply ok_false_iff in Hstatus.
    pose proof (makeRequest_http_error endpoint options w response Hnet Hstatus)
      as Hthrown.
    destruct (invoke_failure_text call endpoint options w _ Hcall Hthrown)
      as (t & Ht & Hbegin & Hcontains).
    exists t. split; [exact Ht|]. split; [exact Hbegin|].
    refine (contains_trans _ _ _ _ Hcontains).
    exists "LM Studio API request failed: ", "". simpl. now rewrite append_nil_r. }
  split; [apply invoke_returns_text|]. split; [|split; [|split]].
  - intros thrown Hthrown.
    destruct (network w (forwarded_call w endpoint options)) as [response|error] eqn:Hnet.
    + destruct (ok response) eqn:Hok.
      * destruct (json response) as [value|error] eqn:Hjson.
        -- now rewrite (makeRequest_parsed _ _ _ response value Hnet Hok Hjson) in Hthrown.
        -- rewrite (makeRequest_unparsable _ _ _ response error Hnet Hok Hjson) in Hthrown.
           injection Hthrown as <-. now eexists.
      * rewrite (makeRequest_http_error _ _ _ response Hnet Hok) in Hthrown.
        injection Hthrown as <-. now eexists.
    + rewrite (makeRequest_rejected _ _ _ error Hnet) in Hthrown.
      injection Hthrown as <-. now eexists.
  - intros message Hthrown.
    exact (invoke_failure_text call endpoint options w _ Hcall Hthrown).
  - intros response Hnet Hstatus.
    destruct (Hhttp response Hnet Hstatus) as (t & Ht & Hbegin & Hcontains).
    exists (decimal (status response)), t.
    split; [apply decimal_numeral|]. now repeat split.
  - intros response Hnet Hstatus.
    destruct (Hhttp response Hnet ltac:(right; rewrite Hstatus; repeat constructor))
      as (t & Ht & Hbegin & Hcontains).
    exists t. split; [exact Ht|]. split; [exact Hbegin|].
    refine (contains_trans _ _ _ _ Hcontains). rewrite Hstatus.
    now exists "", (": " ++ statusText response).
Qed.

(** C4 (as amended).  When the response to [GET /models] has an empty
    [data] array, [lmstudio_list_models] returns the "No models found"
    message.  When [data] is a non-empty array of model objects (objects
    whose [id] and [name], where present, are strings), it returns the header
    and one entry per element, joined by line feeds, in the order of the
    array: entry [k] (counting from 0) begins with the decimal numeral of
    [k + 1] and shows the identifier of element [k]. *)
Theorem list_models_text (w : World) (response : JSValue) (items : list JSValue) :
  fst (makeRequest "/models" no_options w) = Returned response ->
  get_prop response "data" = Returned (Some (JArr items)) ->
  (items = [] ->
     fst (lmstudio_list_models w)
     = Returned
         {| content :=
              [ {| type := "text";
                   text := "No models found in LM Studio. Make sure you have loaded models in LM Studio." |} ] |})
  /\ (items <> [] -> Forall (fun m => is_model m = true) items ->
     exists total lines,
       numeral_of (length items) total
       /\ fst (lmstudio_list_models w)
          = Returned
              {| content :=
                   [ {| type := "text";
                        text := "Available LM Studio Models (" ++ total ++ " total):"
                                  ++ newline ++ newline
                                  ++ String.concat newline lines |} ] |}
       /\ length lines = length items
       /\ forall k m, nth_error items k = Some m ->
            exists number,
              numeral_of (k + 1) number
              /\ nth_error lines k = Some (number ++ ". " ++ identifier m)).
Proof.
  intros Hresponse Hdata.
  unfold lmstudio_list_models.
  rewrite (forwarding_continues _ _ _ w response Hresponse).
  unfold try_catch, bind, lift. rewrite Hdata. split.
  - intros ->. reflexivity.
  - intros Hitems Htyped.
    destruct (map_indexed_typed items 0 Htyped) as (lines & Hlines & Hlen & Hnth).
    exists (decimal (length items)), lines.
    split; [apply decimal_numeral|]. split; [|split; [exact Hlen|]].
    + destruct items as [|m items]; [contradiction|].
      cbn [js_or truthy length_is_zero length Nat.eqb array_items].
      now rewrite Hlines.
    + intros k m Hk. exists (decimal (k + 1)).
      split; [apply decimal_numeral | exact (Hnth k m Hk)].
Qed.


(** ** Further properties of the forwarder and the handlers *)

Lemma baseUrlFromArgs_In (args : list string) (value : string) :
  baseUrlFromArgs args = Some value -> In value args.
Proof.
  unfold baseUrlFromArgs.
  destruct (findIndex _ args) as [index|]; [|discriminate].
  destruct (index + 1 <? length args)%nat; [|discriminate].
  apply nth_error_In.
Qed.

(** X1.  Whatever the command line, the one URL [makeRequest] calls is a
    non-empty base, then [/v1], then the endpoint; the base is the default
    or one of the command-line arguments, never the empty string. *)
Theorem outbound_url_shape (endpoint : string) (options : RequestOptions) (w : World) :
  exists base,
    base <> ""
    /\ (base = "http://localhost:1234" \/ In base (skipn 2 (argv w)))
    /\ calls_during (makeRequest endpoint options) w
       = [ {| url := base ++ "/v1" ++ endpoint; init := request_init options |} ].
Proof.
  rewrite makeRequest_calls. unfold forwarded_call, request_url, string_or.
  destruct (baseUrlFromArgs (skipn 2 (argv w))) as [value|] eqn:Hvalue.
  - destruct (value =? "") eqn:Hempty.
    + exists "http://localhost:1234". split; [discriminate|]. split; [now left | reflexivity].
    + exists value. split; [now apply String.eqb_neq|].
      split; [right; now apply baseUrlFromArgs_In | reflexivity].
  - exists "http://localhost:1234". split; [discriminate|]. split; [now left | reflexivity].
Qed.

(** X2.  Headers a caller passes to [makeRequest] replace the default
    [Content-Type] header instead of joining it: the call carries exactly
    the caller's headers.  No tool passes any, so every outbound call of
    every tool carries exactly [Content-Type: application/json]. *)
Theorem outbound_headers (w : World) :
  (forall endpoint options h r,
      headers options = Some h ->
      In r (calls_during (makeRequest endpoint options) w) ->
      init_headers (init r) = h)
  /\ (forall call r,
      In r (calls_during (invoke call) w) ->
      init_headers (init r) = [("Content-Type", "application/json")]).
Proof.
  split.
  - intros endpoint options h r Hh Hr.
    rewrite makeRequest_calls in Hr. destruct Hr as [<-|[]].
    simpl. now rewrite Hh.
  - intros call r Hr. rewrite invoke_calls in Hr.
    destruct call; simpl in Hr; [contradiction | ..];
      destruct Hr as [<-|[]]; reflexivity.
Qed.

(** *** Responses of unexpected shape *)

Lemma get_current_model_renders (w : World) (props : list (string * JSValue))
    (m c : string) :
  fst (makeRequest "/chat/completions"
         (chat_options [ {| ChatMessage.role := user;
                            ChatMessage.content := "What model are you?" |} ]) w)
  = Returned (JObj props) ->
  ToString (js_or (lookup "model" props) (JStr "unknown")) = Returned m ->
  ToString (js_or (opt_prop (opt_prop (opt_first (lookup "choices" props)) "message")
                     "content") (JStr "No response")) = Returned c ->
  fst (lmstudio_get_current_model w)
  = Returned (text_result
      ("Current Model: " ++ m ++ LF ++ LF ++ "Model Response: " ++ c)).
Proof.
  intros Hresponse Hm Hc. unfold lmstudio_get_current_model.
  rewrite (forwarding_continues _ _ _ w _ Hresponse).
  unfold try_catch, bind, lift, first_choice_content, get_prop, obind.
  now rewrite Hm, Hc.
Qed.

Lemma chat_completion_renders (prompt : string) (system_prompt : option string)
    (w : World) (props : list (string * JSValue)) (m c : string) :
  fst (makeRequest "/chat/completions"
         (chat_options (chat_messages prompt system_prompt)) w)
  = Returned (JObj props) ->
  ToString (js_or (lookup "model" props) (JStr "unknown")) = Returned m ->
  ToString (js_or (opt_prop (opt_prop (opt_first (lookup "choices" props)) "message")
                     "content") (JStr "No response generated")) = Returned c ->
  fst (lmstudio_chat_completion prompt system_prompt w)
  = Returned (text_result
      ("**Model:** " ++ m ++ LF ++ LF ++ "**Response:**" ++ LF ++ c ++ LF ++ LF
         ++ "**Usage:** " ++ JSON_stringify_2 (js_or (lookup "usage" props) (JObj [])))).
Proof.
  intros Hresponse Hm Hc. unfold lmstudio_chat_completion. cbv zeta.
  rewrite (forwarding_continues _ _ _ w _ Hresponse).
  unfold try_catch, bind, lift, first_choice_content, get_prop, obind.
  now rewrite Hm, Hc.
Qed.

Lemma null_link_sound (fallback : string) (props : list (string * JSValue)) :
  null_link props ->
  js_or (opt_prop (opt_prop (opt_first (lookup "choices" props)) "message") "content")
    (JStr fallback)
  = JStr fallback.
Proof.
  intros [H | rest H | choice rest H Hm | choice message rest H Hm Hc];
    rewrite H; simpl; try reflexivity; rewrite Hm; simpl; try reflexivity.
  now rewrite Hc.
Qed.

Lemma map_indexed_null (items : list JSValue) (index : nat) :
  In JNull items -> exists error, map_indexed model_line index items = Threw error.
Proof.
  revert index. induction items as [|m items IH]; intros index H; [contradiction|].
  simpl. destruct (model_line m index) as [line|error] eqn:Hline.
  - destruct H as [-> | H]; [discriminate Hline|].
    destruct (IH (index + 1) H) as [error ->]. now exists error.
  - now exists error.
Qed.

(** X4.  A response body that is the JSON [null] does not crash a forwarding
    tool: reading its first field throws inside the handler's [try], and the
    tool returns its failure text. *)
Theorem null_response_reported (call : ToolCall) (endpoint : string)
    (options : RequestOptions) (w : World) :
  forwarded_arguments call = Some (endpoint, options) ->
  fst (makeRequest endpoint options w) = Returned JNull ->
  exists t, fst (invoke call w) = Returned (text_result t)
            /\ begins_with "❌ Failed to" t.
Proof.
  intros Hcall Hresponse.
  destruct call; simpl in Hcall; [discriminate| | |];
    injection Hcall as <- <-; simpl invoke.
  - unfold lmstudio_list_models.
    rewrite (forwarding_continues _ _ _ w _ Hresponse).
    eexists. split; [reflexivity|]. eexists. reflexivity.
  - unfold lmstudio_get_current_model.
    rewrite (forwarding_continues _ _ _ w _ Hresponse).
    eexists. split; [reflexivity|]. eexists. reflexivity.
  - unfold lmstudio_chat_completion. cbv zeta.
    rewrite (forwarding_continues _ _ _ w _ Hresponse).
    eexists. split; [reflexivity|]. eexists. reflexivity.
Qed.

(** X5.  A response that parses to a boolean, a number, a string or an array
    has none of the fields the handlers read: every forwarding tool returns
    its all-defaults text, as for an empty object. *)
Theorem non_object_response_defaults (call : ToolCall) (endpoint : string)
    (options : RequestOptions) (w : World) (response : JSValue) :
  forwarded_arguments call = Some (endpoint, options) ->
  fst (makeRequest endpoint options w) = Returned response ->
  not_an_object response = true ->
  fst (invoke call w) = Returned (text_result (fallback_text call)).
Proof.
  intros Hcall Hresponse Hshape.
  destruct call; simpl in Hcall; [discriminate| | |];
    injection Hcall as <- <-; simpl invoke.
  - unfold lmstudio_list_models.
    rewrite (forwarding_continues _ _ _ w _ Hresponse).
    destruct response; try discriminate Hshape; reflexivity.
  - unfold lmstudio_get_current_model.
    rewrite (forwarding_continues _ _ _ w _ Hresponse).
    destruct response; try discriminate Hshape; reflexivity.
  - unfold lmstudio_chat_completion. cbv zeta.
    rewrite (forwarding_continues _ _ _ w _ Hresponse).
    destruct response; try discriminate Hshape; reflexivity.
Qed.

(** X6.  When [data] is present but not an array, [lmstudio_list_models]
    never lists anything: a falsy [data] ([null], [false], [0], the empty
    string) and an object whose [length] is [0] give the "No models found"
    message; any other value gives the failure text, as it has no [map]. *)
Theorem data_not_an_array (w : World) (props : list (string * JSValue)) (v : JSValue) :
  fst (makeRequest "/models" no_options w) = Returned (JObj props) ->
  lookup "data" props = Some v ->
  not_an_array v = true ->
  (truthy v = false \/ length_is_zero v = true ->
     fst (lmstudio_list_models w) = Returned (text_result no_models_text))
  /\ (truthy v = true -> length_is_zero v = false ->
     exists t, fst (lmstudio_list_models w) = Returned (text_result t)
               /\ begins_with "❌ Failed to list models" t).
Proof.
  intros Hresponse Hdata Hshape. unfold lmstudio_list_models.
  rewrite (forwarding_continues _ _ _ w _ Hresponse).
  unfold try_catch, bind, lift, get_prop. rewrite Hdata. unfold js_or. split.
  - intros [Hfalsy | Hzero].
    + now rewrite Hfalsy.
    + destruct (truthy v); [now rewrite Hzero | reflexivity].
  - intros Htruthy Hlength. rewrite Htruthy, Hlength.
    destruct v; try discriminate Hshape;
      (eexists; split; [reflexivity | eexists; reflexivity]).
Qed.

(** X7.  The list is all or nothing: a [null] anywhere in [data] makes
    [lmstudio_list_models] return its failure text, with no line for the
    other elements. *)
Theorem null_model_fails_list (w : World) (props : list (string * JSValue))
    (items : list JSValue) :
  fst (makeRequest "/models" no_options w) = Returned (JObj props) ->
  lookup "data" props = Some (JArr items) ->
  In JNull items ->
  exists t, fst (lmstudio_list_models w) = Returned (text_result t)
            /\ begins_with "❌ Failed to list models" t.
Proof.
  intros Hresponse Hdata Hnull. unfold lmstudio_list_models.
  rewrite (forwarding_continues _ _ _ w _ Hresponse).
  unfold try_catch, bind, lift, get_prop. rewrite Hdata.
  destruct (map_indexed_null items 0 Hnull) as [error Herror].
  destruct items as [|m items]; [contradiction|].
  cbn [js_or truthy length_is_zero length Nat.eqb array_items].
  rewrite Herror.
  eexists. split; [reflexivity | eexists; reflexivity].
Qed.

(** X8.  Optional chaining absorbs a [null] at any link of
    [choices[0].message.content]: both chat handlers print their fallback
    reply instead of failing. *)
Theorem null_links_fall_back (w : World) (props : list (string * JSValue))
    (model : string) :
  null_link props ->
  model_text props model ->
  (fst (makeRequest "/chat/completions"
          (chat_options [ {| ChatMessage.role := user;
                             ChatMessage.content := "What model are you?" |} ]) w)
   = Returned (JObj props) ->
   fst (lmstudio_get_current_model w)
   = Returned (text_result
       ("Current Model: " ++ model ++ LF ++ LF ++ "Model Response: No response")))
  /\ (forall prompt system_prompt usage,
      fst (makeRequest "/chat/completions"
             (chat_options (chat_messages prompt system_prompt)) w)
      = Returned (JObj props) ->
      usage_text props usage ->
      fst (lmstudio_chat_completion prompt system_prompt w)
      = Returned (text_result
          ("**Model:** " ++ model ++ LF ++ LF ++ "**Response:**" ++ LF
             ++ "No response generated" ++ LF ++ LF ++ "**Usage:** " ++ usage))).
Proof.
  intros Hnull Hmodel. split.
  - intros Hresponse.
    apply (get_current_model_renders w props); [exact Hresponse | | ].
    + now apply model_text_sound.
    + now rewrite (null_link_sound _ props Hnull).
  - intros prompt system_prompt usage Hresponse Husage.
    rewrite <- (usage_text_sound props usage Husage).
    apply (chat_completion_renders prompt system_prompt w props); [exact Hresponse | | ].
    + now apply model_text_sound.
    + now rewrite (null_link_sound _ props Hnull).
Qed.

(** X9.  The defaults stand in for falsy values, not only for missing ones:
    a [model] that is [null], [false], [0] or the empty string prints as
    ["unknown"] in both chat tools, and such a [usage] prints as the empty
    object in [lmstudio_chat_completion], each whatever the other fields
    hold. *)
Theorem falsy_fields_fall_back (w : World) (props : list (string * JSValue)) :
  (forall reply,
      fst (makeRequest "/chat/completions"
             (chat_options [ {| ChatMessage.role := user;
                                ChatMessage.content := "What model are you?" |} ]) w)
      = Returned (JObj props) ->
      truthy_opt (lookup "model" props) = false ->
      content_text "No response" props reply ->
      fst (lmstudio_get_current_model w)
      = Returned
          {| content :=
               [ {| type := "text";
                    text := "Current Model: unknown" ++ newline ++ newline
                              ++ "Model Response: " ++ reply |} ] |})
  /\ (forall prompt system_prompt model reply usage,
      fst (makeRequest "/chat/completions"
             (chat_options (chat_messages prompt system_prompt)) w)
      = Returned (JObj props) ->
      model_text props model
      \/ (truthy_opt (lookup "model" props) = false /\ model = "unknown") ->
      content_text "No response generated" props reply ->
      usage_text props usage
      \/ (truthy_opt (lookup "usage" props) = false /\ usage = "{}") ->
      fst (lmstudio_chat_completion prompt system_prompt w)
      = Returned
          {| content :=
               [ {| type := "text";
                    text := "**Model:** " ++ model ++ newline ++ newline ++ "**Response:**" ++ newline
                              ++ reply ++ newline ++ newline ++ "**Usage:** " ++ usage |} ] |}).
Proof.
  assert (Hunknown : truthy_opt (lookup "model" props) = false ->
                     js_or (lookup "model" props) (JStr "unknown") = JStr "unknown").
  { intros Hmodel. unfold js_or.
    destruct (lookup "model" props) as [v|]; [|reflexivity].
    simpl in Hmodel. now rewrite Hmodel. }
  split.
  - intros reply Hresponse Hmodel Hreply.
    apply (get_current_model_renders w props "unknown" reply Hresponse).
    + now rewrite (Hunknown Hmodel).
    + now apply content_text_sound.
  - intros prompt system_prompt model reply usage Hresponse Hmodel Hreply Husage.
    rewrite (chat_completion_renders prompt system_prompt w props model reply Hresponse).
    + destruct Husage as [Husage | [Husage ->]].
      * now rewrite (usage_text_sound props usage Husage).
      * unfold js_or at 1. destruct (lookup "usage" props) as [v|]; [|reflexivity].
        simpl in Husage. now rewrite Husage.
    + destruct Hmodel as [Hmodel | [Hmodel ->]].
      * now apply model_text_sound.
      * now rewrite (Hunknown Hmodel).
    + now apply content_text_sound.
Qed.

(** *** The earlier revision *)

Lemma legacy_makeRequest_world (endpoint : string) (options : RequestOptions) (w : World) :
  snd (legacy_makeRequest endpoint options w)
  = logged w {| url := legacy_LM_STUDIO_BASE_URL ++ endpoint;
                init := request_init options |}.
Proof.
  unfold legacy_makeRequest, bind, try_catch, fetch, throw, response_json, lift, logged.
  destruct (network w _) as [response|error]; simpl; [|reflexivity].
  destruct (ok response); simpl; [|reflexivity].
  destruct (json response); reflexivity.
Qed.

Lemma legacy_makeRequest_returns (endpoint : string) (options : RequestOptions)
    (w : World) (value : JSValue) :
  fst (legacy_makeRequest endpoint options w) = Returned value <->
  exists response,
    network w {| url := legacy_LM_STUDIO_BASE_URL ++ endpoint;
                 init := request_init options |} = Returned response
    /\ ok response = true /\ json response = Returned value.
Proof.
  unfold legacy_makeRequest, bind, try_catch, fetch, throw, response_json, lift.
  destruct (network w _) as [response|error]; cbn iota.
  - destruct (ok response) eqn:Hok; cbn [negb fst].
    + destruct (json response) as [v|e] eqn:Hjson; cbn [fst]; split.
      * intros [= ->]. now exists response.
      * intros (r & [= <-] & _ & Hv). now rewrite Hjson in Hv.
      * discriminate.
      * intros (r & [= <-] & _ & Hv). now rewrite Hjson in Hv.
    + split; [discriminate|]. intros (r & [= <-] & Hok' & _). now rewrite Hok in Hok'.
  - cbn [fst]. split; [discriminate|]. intros (r & Hr & _). discriminate.
Qed.

(** X10.  The health check of the earlier revision is truthful and ignores
    the command line: it makes one call, to
    [http://localhost:1234/v1/models], never throws, and its text starts with
    the check mark exactly when that call was answered with a status in
    200-299 and a body that parses. *)
Theorem health_check_truthful (w : World) :
  calls_during lmstudio_health_check w
  = [ {| url := "http://localhost:1234/v1/models"; init := request_init no_options |} ]
  /\ exists t,
       fst (lmstudio_health_check w) = Returned (text_result t)
       /\ (begins_with "✅" t <->
           exists response value,
             network w {| url := "http://localhost:1234/v1/models";
                          init := request_init no_options |} = Returned response
             /\ 200 <= status response < 300
             /\ json response = Returned value).
Proof.
  split.
  - unfold calls_during, lmstudio_health_check.
    rewrite forwarding_world by (intros; handler_body).
    rewrite legacy_makeRequest_world. simpl. apply skipn_past.
  - unfold lmstudio_health_check.
    destruct (fst (legacy_makeRequest "/models" no_options w)) as [value|error] eqn:Hresult.
    + rewrite (forwarding_continues _ _ _ w _ Hresult).
      eexists. split; [reflexivity|]. split.
      * intros _. apply legacy_makeRequest_returns in Hresult.
        destruct Hresult as (response & Hnet & Hok & Hjson).
        exists response, value. split; [exact Hnet|]. split; [|exact Hjson].
        unfold ok in Hok. apply andb_true_iff in Hok.
        split; [now apply Nat.leb_le | now apply Nat.ltb_lt].
      * intros _. eexists. reflexivity.
    + rewrite (forwarding_caught _ _ _ w error Hresult).
      eexists. split; [reflexivity|]. split.
      * intros [rest Hrest]. simpl in Hrest. discriminate Hrest.
      * intros (response & value & Hnet & [Hlo Hhi] & Hjson).
        assert (Hreturns : fst (legacy_makeRequest "/models" no_options w) = Returned value).
        { apply legacy_makeRequest_returns. exists response.
          split; [exact Hnet|]. split; [|exact Hjson].
          unfold ok. apply andb_true_iff.
          split; [now apply Nat.leb_le | now apply Nat.ltb_lt]. }
        rewrite Hreturns in Hresult. discriminate Hresult.
Qed.

(** X11.  The revision that reads [--base-url] extends the earlier one
    conservatively: on a command line without [--base-url], [makeRequest]
    does exactly what the earlier [makeRequest] does, result and call. *)
Theorem makeRequest_extends_legacy (endpoint : string) (options : RequestOptions)
    (w : World) :
  ~ In "--base-url" (skipn 2 (argv w)) ->
  makeRequest endpoint options w = legacy_makeRequest endpoint options w.
Proof.
  intros H. unfold makeRequest, legacy_makeRequest.
  unfold bind at 1. unfold process_argv_slice_2.
  unfold request_url. now rewrite (baseUrlFromArgs_absent _ H).
Qed.

(** *** The request body *)

Lemma no_control_append (a b : string) :
  no_control (a ++ b) = no_control a && no_control b.
Proof.
  induction a as [|c a IH]; simpl; [reflexivity|].
  now rewrite IH, andb_assoc.
Qed.

Lemma quote_char_no_control (c : ascii) : no_control (quote_char c) = true.
Proof. destruct c as [[] [] [] [] [] [] [] []]; reflexivity. Qed.

Lemma quote_chars_no_control (s : string) : no_control (quote_chars s) = true.
Proof.
  induction s as [|c s IH]; simpl; [reflexivity|].
  now rewrite no_control_append, quote_char_no_control, IH.
Qed.

Lemma QuoteJSONString_no_control (s : string) : no_control (QuoteJSONString s) = true.
Proof.
  unfold QuoteJSONString.
  now rewrite !no_control_append, quote_chars_no_control.
Qed.

Lemma message_text_no_control (m : ChatMessage.t) : no_control (message_text m) = true.
Proof.
  unfold message_text.
  now rewrite !no_control_append, !QuoteJSONString_no_control.
Qed.

Lemma concat_no_control (parts : list string) :
  Forall (fun part => no_control part = true) parts ->
  no_control (String.concat "," parts) = true.
Proof.
  induction 1 as [|part parts Hpart Hparts IH]; [reflexivity|].
  destruct parts as [|next parts]; [exact Hpart|].
  change (String.concat "," (part :: next :: parts))
    with (part ++ "," ++ String.concat "," (next :: parts)).
  now rewrite !no_control_append, Hpart, IH.
Qed.

(** X12.  The body of a chat request is a single line of text whatever the
    prompts contain: line feeds and the other control characters of a prompt
    are escaped, so no byte below 32 reaches the wire. *)
Theorem chat_body_single_line (messages : list ChatMessage.t) (prompt : string)
    (system_prompt : option string) (w : World) :
  no_control (JSON_stringify (chat_body messages)) = true
  /\ forall r, In r (calls_during (lmstudio_chat_completion prompt system_prompt) w) ->
       exists b, init_body (init r) = Some b /\ no_control b = true.
Proof.
  assert (H : forall l, no_control (JSON_stringify (chat_body l)) = true).
  { intros l. rewrite chat_body_text.
    rewrite !no_control_append, !QuoteJSONString_no_control.
    destruct l as [|m l]; [reflexivity|].
    rewrite !no_control_append. unfold join. rewrite concat_no_control; [reflexivity|].
    apply Forall_forall. intros part Hin. apply in_map_iff in Hin.
    destruct Hin as (x & <- & _). apply message_text_no_control. }
  split; [apply H|].
  intros r Hr.
  change (lmstudio_chat_completion prompt system_prompt)
    with (invoke (call_chat_completion prompt system_prompt)) in Hr.
  rewrite invoke_calls in Hr. destruct Hr as [<-|[]].
  eexists. split; [reflexivity | apply H].
Qed.

Lemma unquote_head_quote_char (c : ascii) (rest : string) :
  unquote_head (quote_char c ++ rest) = Some (c, rest).
Proof. destruct c as [[] [] [] [] [] [] [] []]; reflexivity. Qed.

Lemma quote_chars_injective (s1 s2 t1 t2 : string) :
  quote_chars s1 ++ DQUOTE ++ t1 = quote_chars s2 ++ DQUOTE ++ t2 ->
  s1 = s2 /\ t1 = t2.
Proof.
  revert s2. induction s1 as [|c1 s1 IH]; intros [|c2 s2] H; simpl in H.
  - injection H as <-. now split.
  - rewrite append_assoc in H. apply (f_equal unquote_head) in H.
    rewrite unquote_head_quote_char in H. discriminate H.
  - rewrite append_assoc in H. apply (f_equal unquote_head) in H.
    rewrite unquote_head_quote_char in H. discriminate H.
  - rewrite !append_assoc in H. apply (f_equal unquote_head) in H.
    rewrite !unquote_head_quote_char in H. injection H as <- H.
    destruct (IH s2 H) as [<- <-]. now split.
Qed.

Lemma role_name_injective (r1 r2 : Role) : role_name r1 = role_name r2 -> r1 = r2.
Proof. destruct r1, r2; simpl; intros H; reflexivity || discriminate H. Qed.

Lemma message_text_injective (m1 m2 : ChatMessage.t) (t1 t2 : string) :
  message_text m1 ++ t1 = message_text m2 ++ t2 -> m1 = m2 /\ t1 = t2.
Proof.
  destruct m1 as [r1 c1], m2 as [r2 c2].
  unfold message_text, QuoteJSONString. simpl.
  repeat (rewrite append_assoc; simpl). intros H.
  injection H as H.
  apply quote_chars_injective in H. destruct H as [Hrole H].
  apply role_name_injective in Hrole. subst r2.
  injection H as H.
  apply quote_chars_injective in H. destruct H as [<- H].
  injection H as <-. now split.
Qed.

Lemma messages_text_injective (l1 l2 : list ChatMessage.t) (t1 t2 : string) :
  l1 <> [] -> l2 <> [] ->
  String.concat "," (map message_text l1) ++ "]" ++ t1
  = String.concat "," (map message_text l2) ++ "]" ++ t2 ->
  l1 = l2 /\ t1 = t2.
Proof.
  assert (Hcons : forall m n l,
             String.concat "," (map message_text (m :: n :: l))
             = message_text m ++ "," ++ String.concat "," (map message_text (n :: l)))
    by reflexivity.
  assert (Hone : forall m, String.concat "," (map message_text [m]) = message_text m)
    by reflexivity.
  revert l2. induction l1 as [|m1 l1 IH]; intros [|m2 l2] H1 H2 H;
    try contradiction.
  destruct l1 as [|n1 l1], l2 as [|n2 l2].
  - rewrite !Hone in H. apply message_text_injective in H. destruct H as [<- H].
    injection H as <-. now split.
  - rewrite Hone, Hcons, !append_assoc in H.
    apply message_text_injective in H. destruct H as [_ H].
    cbn [append] in H. discriminate H.
  - rewrite Hone, Hcons, !append_assoc in H.
    apply message_text_injective in H. destruct H as [_ H].
    cbn [append] in H. discriminate H.
  - rewrite !Hcons, !append_assoc in H.
    apply message_text_injective in H. destruct H as [<- H].
    cbn [append] in H. injection H as H.
    destruct (IH (n2 :: l2) ltac:(discriminate) ltac:(discriminate) H) as [Hl <-].
    now rewrite Hl.
Qed.

Lemma append_cancel_l (p a b : string) : p ++ a = p ++ b -> a = b.
Proof.
  induction p as [|c p IH]; simpl; intros H; [exact H|].
  injection H as H. now apply IH.
Qed.

Lemma messages_text_head (m : ChatMessage.t) (l : list ChatMessage.t) :
  exists tail, String.concat "," (map message_text (m :: l)) = String "{" tail.
Proof.
  destruct l as [|n l]; simpl; eexists; reflexivity.
Qed.

Lemma chat_body_injective (l1 l2 : list ChatMessage.t) :
  JSON_stringify (chat_body l1) = JSON_stringify (chat_body l2) -> l1 = l2.
Proof.
  rewrite !chat_body_text. intros H.
  do 7 apply append_cancel_l in H.
  destruct l1 as [|m1 l1], l2 as [|m2 l2].
  - reflexivity.
  - unfold join in H. destruct (messages_text_head m2 l2) as [tail Htail].
    rewrite Htail in H. discriminate H.
  - unfold join in H. destruct (messages_text_head m1 l1) as [tail Htail].
    rewrite Htail in H. discriminate H.
  - unfold join in H. rewrite !append_assoc in H. apply append_cancel_l in H.
    now destruct (messages_text_injective (m1 :: l1) (m2 :: l2) "}" "}"
                    ltac:(discriminate) ltac:(discriminate) H).
Qed.

(** X13.  Serialising loses nothing of the conversation: request bodies are
    equal only for equal message lists, so two [lmstudio_chat_completion]
    invocations that make the same outbound call carry the same prompt and
    the same forwarded messages, whatever quotes, backslashes or line feeds
    the prompts contain. *)
Theorem chat_request_determines_messages (p1 p2 : string)
    (s1 s2 : option string) (w : World) :
  calls_during (lmstudio_chat_completion p1 s1) w
  = calls_during (lmstudio_chat_completion p2 s2) w ->
  p1 = p2 /\ chat_messages p1 s1 = chat_messages p2 s2.
Proof.
  change (lmstudio_chat_completion p1 s1) with (invoke (call_chat_completion p1 s1)).
  change (lmstudio_chat_completion p2 s2) with (invoke (call_chat_completion p2 s2)).
  rewrite !invoke_calls. cbn [forwarded_arguments]. intros H.
  apply (f_equal (fun calls =>
                    match calls with
                    | r :: _ => match init_body (init r) with Some b => b | None => "" end
                    | [] => ""
                    end)) in H.
  unfold forwarded_call, request_init, chat_options in H.
  cbn [init init_body body] in H. apply chat_body_injective in H.
  split; [|exact H].
  unfold chat_messages in H.
  destruct s1 as [s1|], s2 as [s2|]; simpl in H;
    repeat match type of H with
           | context [?x =? ""] => destruct (x =? "")
           end; simpl in H; congruence.
Qed.

(** X14.  A line of the model list prefers [id] to [name] and reads [name]
    only when [id] is missing or falsy: with a non-empty string [id] the line
    shows it whatever [name] holds; otherwise, with a non-empty string
    [name], the line shows the name; with neither, ['Unknown Model']. *)
Theorem model_line_precedence (props : list (string * JSValue)) (index : nat) :
  (forall s, lookup "id" props = Some (JStr s) -> s <> "" ->
     model_line (JObj props) index = Returned (decimal (index + 1) ++ ". " ++ s))
  /\ (forall s, truthy_opt (lookup "id" props) = false ->
       lookup "name" props = Some (JStr s) -> s <> "" ->
       model_line (JObj props) index = Returned (decimal (index + 1) ++ ". " ++ s))
  /\ (truthy_opt (lookup "id" props) = false ->
       truthy_opt (lookup "name" props) = false ->
       model_line (JObj props) index
       = Returned (decimal (index + 1) ++ ". " ++ "Unknown Model")).
Proof.
  unfold model_line, model_label, get_prop, obind. repeat split.
  - intros s Hid Hs. rewrite Hid. apply String.eqb_neq in Hs.
    simpl. rewrite Hs. simpl. now rewrite Hs.
  - intros s Hid Hname Hs. rewrite Hid, Hname. apply String.eqb_neq in Hs.
    simpl. now rewrite Hs.
  - intros Hid Hname. rewrite Hid.
    destruct (lookup "name" props) as [v|]; [|reflexivity].
    simpl in Hname. simpl. now rewrite Hname.
Qed.

End Bridge.

(** From here on the number representation is inferred where it can be. *)
Arguments JNull {Num}.
Arguments JBool {Num} b.
Arguments JNum {Num} n.
Arguments JStr {Num} s.
Arguments JArr {Num} items.
Arguments JObj {Num} props.
Arguments argv {Num} w.
Arguments chat_body {Num} messages.
Arguments makeRequest {Num} endpoint options w.
Arguments lmstudio_list_models {Num} w.
Arguments lmstudio_get_current_model {Num} w.
Arguments lmstudio_chat_completion {Num} prompt system_prompt w.
Arguments invoke {Num} call w.
Arguments calls_during {Num A} m w.
Arguments legacy_makeRequest {Num} endpoint options w.
Arguments lmstudio_health_check {Num} w.
Arguments model_line {Num} model index.

(** ** Concrete runs *)

(** C1 at a server answering [GET /models] with status 500. *)
Lemma failures_become_text_witness :
  exists t,
    fst (invoke call_list_models
           (serving IntegerNumber []
              (Returned {| status := 500; statusText := "Internal Server Error";
                           json := Returned JNull |})))
    = Returned {| content := [ {| type := "text"; text := t |} ] |}
    /\ begins_with "❌ Failed to" t
    /\ contains "HTTP 500" t.
Proof.
  destruct (failures_become_text IntegerNumber call_list_models
              "/models" no_options
              (serving IntegerNumber []
                 (Returned {| status := 500; statusText := "Internal Server Error";
                              json := Returned JNull |}))
              eq_refl) as (_ & _ & _ & _ & H).
  apply (H {| status := 500; statusText := "Internal Server Error";
              json := Returned JNull |}).
  - reflexivity.
  - reflexivity.
Defined.



(** C3 (as amended) at [--base-url http://host:9999]. *)
Lemma base_url_resolution_witness :
  calls_during (makeRequest "/models" no_options)
    (serving IntegerNumber ["--base-url"; "http://host:9999"]
       (Threw (ErrorInstance "connect ECONNREFUSED")))
  = [ {| url := "http://host:9999" ++ "/v1" ++ "/models";
         init := request_init no_options |} ]
  /\ calls_during (makeRequest "/models" no_options)
       (serving IntegerNumber [] (Threw (ErrorInstance "connect ECONNREFUSED")))
     = [ {| url := "http://localhost:1234" ++ "/v1" ++ "/models";
            init := request_init no_options |} ].
Proof.
  split.
  - apply (proj1 (base_url_resolution IntegerNumber "/models" no_options
                    (serving IntegerNumber ["--base-url"; "http://host:9999"]
                       (Threw (ErrorInstance "connect ECONNREFUSED"))))
                 [] "http://host:9999" []).
    + reflexivity.
    + simpl. tauto.
    + discriminate.
  - apply (proj2 (base_url_resolution IntegerNumber "/models" no_options
                    (serving IntegerNumber [] (Threw (ErrorInstance "connect ECONNREFUSED"))))).
    left. simpl. tauto.
Defined.

(** C3 as stated fails when the value after [--base-url] is the empty
    string: the call goes to the default base URL. *)
Lemma base_url_resolution_counterexample :
  ~ (forall (w : World IntegerNumber) (endpoint value : string) (pre post : list string),
        skipn 2 (argv w) = (pre ++ "--base-url" :: value :: post)%list ->
        ~ In "--base-url" pre ->
        map url (calls_during (makeRequest endpoint no_options) w)
        = [ value ++ "/v1" ++ endpoint ]).
Proof.
  intros H.
  specialize (H (serving IntegerNumber ["--base-url"; ""]
                   (Threw (ErrorInstance "connect ECONNREFUSED")))
                "/models" "" [] [] eq_refl (fun F => F)).
  vm_compute in H. discriminate H.
Qed.

(** C4 (as amended) at a response listing two models. *)
Lemma list_models_text_witness :
  fst (lmstudio_list_models
         (serving IntegerNumber []
            (Returned
               {| status := 200; statusText := "OK";
                  json := Returned
                    (JObj
                       [("data", JArr
                           [ JObj [("id", JStr "qwen2.5-7b")];
                             JObj [("name", JStr "phi-3")] ])])
               |})))
  = Returned
      {| content :=
           [ {| type := "text";
                text := "Available LM Studio Models (2 total):" ++ newline ++ newline
                          ++ "1. qwen2.5-7b" ++ newline ++ "2. phi-3" |} ] |}.
Proof.
  destruct (proj2 (list_models_text IntegerNumber
              (serving IntegerNumber []
                 (Returned
                    {| status := 200; statusText := "OK";
                       json := Returned
                         (JObj
                            [("data", JArr
                                [ JObj [("id", JStr "qwen2.5-7b")];
                                  JObj [("name", JStr "phi-3")] ])])
                    |}))
              (JObj
                 [("data", JArr
                     [ JObj [("id", JStr "qwen2.5-7b")];
                       JObj [("name", JStr "phi-3")] ])])
              [ JObj [("id", JStr "qwen2.5-7b")];
                JObj [("name", JStr "phi-3")] ]
              eq_refl eq_refl)
            ltac:(discriminate)
            ltac:(repeat constructor))
    as (total & lines & Htotal & Htext & Hlen & Hnth).
  rewrite Htext.
  apply NilEmpty.sus in Htotal. simpl in Htotal. subst total.
  destruct lines as [|l1 [|l2 [|l3 lines]]]; try discriminate Hlen.
  destruct (Hnth 0 _ eq_refl) as (n1 & Hn1 & H1).
  destruct (Hnth 1 _ eq_refl) as (n2 & Hn2 & H2).
  apply NilEmpty.sus in Hn1, Hn2. simpl in Hn1, Hn2. subst n1 n2.
  simpl in H1, H2. injection H1 as ->. injection H2 as ->.
  reflexivity.
Defined.

(** C4 as stated fails at a [data] array holding a [null]: no numbered list
    is returned, but the failure text. *)
Lemma list_models_text_counterexample :
  ~ (forall (w : World IntegerNumber) (response : JSValue IntegerNumber)
            (items : list (JSValue IntegerNumber)),
        fst (makeRequest "/models" no_options w) = Returned response ->
        get_prop IntegerNumber response "data" = Returned (Some (JArr items)) ->
        items <> [] ->
        exists total lines,
          fst (lmstudio_list_models w)
          = Returned
              {| content :=
                   [ {| type := "text";
                        text := "Available LM Studio Models (" ++ total ++ " total):"
                                  ++ newline ++ newline
                                  ++ String.concat newline lines |} ] |}
          /\ length lines = length items).
Proof.
  intros H.
  destruct (H (serving IntegerNumber []
                    (Returned {| status := 200; statusText := "OK";
                                 json := Returned (JObj [("data", JArr [ JObj [("id", JStr "qwen2.5-7b")]; JNull ])]) |}))
              (JObj [("data", JArr [ JObj [("id", JStr "qwen2.5-7b")]; JNull ])])
              [ JObj [("id", JStr "qwen2.5-7b")]; JNull ]
              eq_refl eq_refl ltac:(discriminate))
    as (total & lines & Htext & _).
  vm_compute in Htext. discriminate Htext.
Qed.

(** C5 at a refused connection, a status 500, a body that is not JSON, and
    a parsed body. *)
Lemma makeRequest_classification_witness :
  fst (makeRequest "/models" no_options
         (serving IntegerNumber [] (Threw (ErrorInstance "connect ECONNREFUSED"))))
  = Threw (ErrorInstance "LM Studio API request failed: connect ECONNREFUSED")
  /\ fst (makeRequest "/models" no_options
            (serving IntegerNumber []
               (Returned {| status := 500; statusText := "Internal Server Error";
                            json := Returned JNull |})))
     = Threw (ErrorInstance
                "LM Studio API request failed: HTTP 500: Internal Server Error")
  /\ fst (makeRequest "/models" no_options
            (serving IntegerNumber []
               (Returned {| status := 200; statusText := "OK";
                            json := Threw (ErrorInstance "Unexpected token <") |})))
     = Threw (ErrorInstance "LM Studio API response parsing failed: Unexpected token <")
  /\ fst (makeRequest "/models" no_options
            (serving IntegerNumber []
               (Returned {| status := 200; statusText := "OK";
                            json := Returned (JObj []) |})))
     = Returned (JObj []).
Proof.
  split; [|split; [|split]].
  - apply (proj1 (makeRequest_classification IntegerNumber "/models" no_options
                    (serving IntegerNumber [] (Threw (ErrorInstance "connect ECONNREFUSED"))))
                 "connect ECONNREFUSED").
    left. reflexivity.
  - destruct (proj1 (proj2 (makeRequest_classification IntegerNumber "/models" no_options
                              (serving IntegerNumber []
                                 (Returned {| status := 500;
                                              statusText := "Internal Server Error";
                                              json := Returned JNull |}))))
                    {| status := 500; statusText := "Internal Server Error";
                       json := Returned JNull |}
                    eq_refl
                    ltac:(right; simpl; lia))
      as (d & Hd & H).
    apply NilEmpty.sus in Hd. simpl in Hd. subst d. exact H.
  - apply (proj1 (proj2 (proj2 (makeRequest_classification IntegerNumber "/models"
                                  no_options _)))
                 {| status := 200; statusText := "OK";
                    json := Threw (ErrorInstance "Unexpected token <") |}
                 "Unexpected token <").
    + reflexivity.
    + simpl. lia.
    + left. reflexivity.
  - apply (proj1 (proj2 (proj2 (proj2 (makeRequest_classification IntegerNumber "/models"
                                         no_options _))))
                 {| status := 200; statusText := "OK";
                    json := Returned (JObj []) |}).
    + reflexivity.
    + simpl. lia.
    + reflexivity.
Defined.

(** C7 as stated fails for [echo], which makes no outbound call. *)
Lemma one_call_per_invocation_counterexample :
  ~ (forall (call : ToolCall) (w : World IntegerNumber),
        length (calls_during (invoke call) w) = 1).
Proof.
  intros H.
  specialize (H (call_echo "hi")
                (serving IntegerNumber [] (Threw (ErrorInstance "connect ECONNREFUSED")))).
  vm_compute in H. discriminate H.
Qed.




(** C10 (as amended) at the command line [--base-url]. *)
Lemma base_url_without_value_witness :
  calls_during (makeRequest "/models" no_options)
    (serving IntegerNumber ["--base-url"] (Threw (ErrorInstance "connect ECONNREFUSED")))
  = [ {| url := "http://localhost:1234" ++ "/v1" ++ "/models";
         init := request_init no_options |} ].
Proof.
  apply (base_url_without_value IntegerNumber "/models" no_options
           (serving IntegerNumber ["--base-url"]
              (Threw (ErrorInstance "connect ECONNREFUSED")))
           []).
  - reflexivity.
  - simpl. tauto.
Defined.

(** C10 as stated fails when an earlier [--base-url] carries a value: the
    first one decides, and the call goes to its value. *)
Lemma base_url_without_value_counterexample :
  ~ (forall (w : World IntegerNumber) (endpoint : string) (pre : list string),
        skipn 2 (argv w) = (pre ++ ["--base-url"])%list ->
        map url (calls_during (makeRequest endpoint no_options) w)
        = [ "http://localhost:1234" ++ "/v1" ++ endpoint ]).
Proof.
  intros H.
  specialize (H (serving IntegerNumber ["--base-url"; "http://host:9999"; "--base-url"]
                   (Threw (ErrorInstance "connect ECONNREFUSED")))
                "/models" ["--base-url"; "http://host:9999"] eq_refl).
  vm_compute in H. discriminate H.
Qed.

(** X2 at a caller passing an [Authorization] header: the call carries it
    and no [Content-Type]. *)
Lemma outbound_headers_witness :
  init_headers
    (init {| url := "http://localhost:1234/v1/models";
             init := {| init_method := None;
                        init_headers := [("Authorization", "Bearer token")];
                        init_body := None |} |})
  = [("Authorization", "Bearer token")].
Proof.
  apply (proj1 (outbound_headers IntegerNumber
                  (serving IntegerNumber [] (Threw (ErrorInstance "connect ECONNREFUSED"))))
               "/models"
               {| method := None; headers := Some [("Authorization", "Bearer token")];
                  body := None |}
               [("Authorization", "Bearer token")]).
  - reflexivity.
  - left. reflexivity.
Defined.

(** X4 at a server answering [GET /models] with the body [null]. *)
Lemma null_response_reported_witness :
  exists t,
    fst (invoke call_list_models
           (serving IntegerNumber []
              (Returned {| status := 200; statusText := "OK"; json := Returned JNull |})))
    = Returned (text_result t)
    /\ begins_with "❌ Failed to" t.
Proof.
  apply (null_response_reported IntegerNumber call_list_models "/models" no_options).
  - reflexivity.
  - reflexivity.
Defined.

(** X5 at a server answering the probe of [lmstudio_get_current_model] with
    an empty array. *)
Lemma non_object_response_defaults_witness :
  fst (invoke call_get_current_model
         (serving IntegerNumber []
            (Returned {| status := 200; statusText := "OK"; json := Returned (JArr []) |})))
  = Returned (text_result
      ("Current Model: unknown" ++ LF ++ LF ++ "Model Response: No response")).
Proof.
  apply (non_object_response_defaults IntegerNumber call_get_current_model
           "/chat/completions"
           (chat_options IntegerNumber
              [ {| ChatMessage.role := user;
                   ChatMessage.content := "What model are you?" |} ])
           _ (JArr [])).
  - reflexivity.
  - reflexivity.
  - reflexivity.
Defined.

(** X6 at a response whose [data] is [null], and at one whose [data] is a
    string. *)
Lemma data_not_an_array_witness :
  fst (lmstudio_list_models
         (serving IntegerNumber []
            (Returned {| status := 200; statusText := "OK";
                         json := Returned (JObj [("data", JNull)]) |})))
  = Returned (text_result (no_models_text))
  /\ exists t,
       fst (lmstudio_list_models
              (serving IntegerNumber []
                 (Returned {| status := 200; statusText := "OK";
                              json := Returned (JObj [("data", JStr "qwen")]) |})))
       = Returned (text_result t)
       /\ begins_with "❌ Failed to list models" t.
Proof.
  split.
  - apply (proj1 (data_not_an_array IntegerNumber
                    (serving IntegerNumber []
             (Returned {| status := 200; statusText := "OK";
                          json := Returned (JObj [("data", JNull)]) |}))
                    [("data", JNull)] JNull eq_refl eq_refl eq_refl)).
    left. reflexivity.
  - apply (proj2 (data_not_an_array IntegerNumber
                    (serving IntegerNumber []
             (Returned {| status := 200; statusText := "OK";
                          json := Returned (JObj [("data", JStr "qwen")]) |}))
                    [("data", JStr "qwen")] (JStr "qwen") eq_refl eq_refl eq_refl)).
    + reflexivity.
    + reflexivity.
Defined.

(** X7 at a [data] array whose second element is [null]. *)
Lemma null_model_fails_list_witness :
  exists t,
    fst (lmstudio_list_models
           (serving IntegerNumber []
              (Returned
                 {| status := 200; statusText := "OK";
                    json := Returned
                      (JObj [("data", JArr [ JObj [("id", JStr "qwen2.5-7b")]; JNull ])])
                 |})))
    = Returned (text_result t)
    /\ begins_with "❌ Failed to list models" t.
Proof.
  apply (null_model_fails_list IntegerNumber _
           [("data", JArr [ JObj [("id", JStr "qwen2.5-7b")]; JNull ])]
           [ JObj [("id", JStr "qwen2.5-7b")]; JNull ]).
  - reflexivity.
  - reflexivity.
  - right. left. reflexivity.
Defined.

(** X8 at a response whose [choices] is [null]. *)
Lemma null_links_fall_back_witness :
  fst (lmstudio_get_current_model
         (serving IntegerNumber []
            (Returned
               {| status := 200; statusText := "OK";
                  json := Returned
                    (JObj [("model", JStr "qwen2.5-7b"); ("choices", JNull)]) |})))
  = Returned (text_result
      ("Current Model: qwen2.5-7b" ++ LF ++ LF ++ "Model Response: No response")).
Proof.
  apply (proj1 (null_links_fall_back IntegerNumber
                  (serving IntegerNumber []
             (Returned {| status := 200; statusText := "OK";
                          json := Returned (JObj [("model", JStr "qwen2.5-7b"); ("choices", JNull)]) |}))
                  [("model", JStr "qwen2.5-7b"); ("choices", JNull)] "qwen2.5-7b"
                  ltac:(now apply choices_null)
                  ltac:(now apply model_named))).
  reflexivity.
Defined.

(** X9 at a response whose [model] is a name and whose [usage] is [null]. *)
Lemma falsy_fields_fall_back_witness :
  fst (lmstudio_chat_completion "hi" None
         (serving IntegerNumber []
         (Returned {| status := 200; statusText := "OK";
                      json := Returned (JObj [("model", JStr "qwen"); ("usage", JNull)]) |})))
  = Returned
      {| content :=
           [ {| type := "text";
                text := "**Model:** qwen" ++ newline ++ newline ++ "**Response:**" ++ newline
                          ++ "No response generated" ++ newline ++ newline ++ "**Usage:** {}" |} ] |}.
Proof.
  apply (proj2 (falsy_fields_fall_back IntegerNumber
                  (serving IntegerNumber []
                  (Returned {| status := 200; statusText := "OK";
                               json := Returned (JObj [("model", JStr "qwen"); ("usage", JNull)]) |}))
                  [("model", JStr "qwen"); ("usage", JNull)])
               "hi" None "qwen" "No response generated" "{}").
  - reflexivity.
  - left. now apply model_named.
  - now apply choices_missing.
  - right. now split.
Defined.

(** X11 at a command line without arguments. *)
Lemma makeRequest_extends_legacy_witness :
  makeRequest "/models" no_options
    (serving IntegerNumber []
       (Returned {| status := 200; statusText := "OK"; json := Returned (JObj []) |}))
  = legacy_makeRequest "/models" no_options
      (serving IntegerNumber []
         (Returned {| status := 200; statusText := "OK"; json := Returned (JObj []) |})).
Proof.
  apply (makeRequest_extends_legacy IntegerNumber).
  simpl. tauto.
Defined.

(** X12 at a prompt of two lines. *)
Lemma chat_body_single_line_witness :
  exists b,
    init_body
      (init {| url := "http://localhost:1234/v1/chat/completions";
               init := request_init
                         (chat_options IntegerNumber
                            (chat_messages ("first line" ++ LF ++ "second line") None))
            |})
    = Some b
    /\ no_control b = true.
Proof.
  apply (proj2 (chat_body_single_line IntegerNumber []
                  ("first line" ++ LF ++ "second line") None
                  (serving IntegerNumber [] (Threw (ErrorInstance "connect ECONNREFUSED"))))).
  left. reflexivity.
Defined.

(** X13 at an absent and an empty system prompt, which make the same call. *)
Lemma chat_request_determines_messages_witness :
  "hi" = "hi" /\ chat_messages "hi" None = chat_messages "hi" (Some "").
Proof.
  apply (chat_request_determines_messages IntegerNumber "hi" "hi" None (Some "")
           (serving IntegerNumber [] (Threw (ErrorInstance "connect ECONNREFUSED")))).
  reflexivity.
Defined.

(** X14 at a model carrying both an [id] and a [name]. *)
Lemma model_line_precedence_witness :
  model_line (Num := IntegerNumber)
    (JObj [("id", JStr "qwen2.5-7b"); ("name", JStr "Qwen")]) 0
  = Returned "1. qwen2.5-7b".
Proof.
  apply (proj1 (model_line_precedence IntegerNumber
                  [("id", JStr "qwen2.5-7b"); ("name", JStr "Qwen")] 0)
               "qwen2.5-7b").
  - reflexivity.
  - discriminate.
Defined.
